(** * WorkoutTracker AI service: persona registry and request gateway

    A shallow embedding of [services/ai/config/personalities.py] and
    [services/ai/main.py].

    Conventions of the embedding:
    - a Python [str] is a [string] holding the UTF-8 encoding of the text
      (the source files are UTF-8); the encoding is injective, so equality
      and emptiness of texts are equality and emptiness of these strings;
    - a Python [dict] with string keys is a [gmap string _];
    - a raised exception is the left injection of a sum, a returned value
      the right one;
    - [await f(...)] is a call: a handler runs from its first statement to
      its [return] or [raise] without reading state another request wrote. *)

From Stdlib Require Import Ascii String ZArith SpecFloat.
From stdpp Require Import gmap strings list fin_maps.

Open Scope string_scope.
Open Scope list_scope.

(** ** Python strings *)

(** The double quote character, U+0022. *)
Definition dq : string := String "034"%char EmptyString.

(** The line feed character, U+000A. *)
Definition nl : string := String "010"%char EmptyString.

(** The text of a triple-quoted literal, given line by line. *)
Definition unlines (ls : list string) : string := String.concat nl ls.

(** A byte [10xxxxxx] continues the encoding of a code point. *)
Definition is_continuation (c : ascii) : bool :=
  match c with
  | Ascii _ _ _ _ _ _ false true => true
  | _ => false
  end.

(** [s[:n]]: the first [n] code points of [s]. *)
Fixpoint str_prefix (n : nat) (s : string) : string :=
  match s with
  | EmptyString => EmptyString
  | String c s' =>
      if is_continuation c then String c (str_prefix n s')
      else match n with
           | O => EmptyString
           | S n' => String c (str_prefix n' s')
           end
  end.

(** ** Python exceptions *)

(** An instance of [Exception]: its class and the text [str(e)]. *)
Record Exception := { exc_class : string; exc_str : string }.

(** [str(KeyError(k))] is [repr(k)]; the keys used here are plain
    identifiers, whose [repr] is the key between single quotes. *)
Definition KeyError (key : string) : Exception :=
  {| exc_class := "KeyError"; exc_str := "'" +:+ key +:+ "'" |}.

(** [d[k]] *)
Definition subscript {V : Type} (d : gmap string V) (k : string) : Exception + V :=
  match d !! k with
  | Some v => inr v
  | None => inl (KeyError k)
  end.

(** [k in d] *)
Definition contains {V : Type} (d : gmap string V) (k : string) : bool :=
  bool_decide (is_Some (d !! k)).

(** ** config/personalities.py *)

(** [@dataclass class PersonaConfig] *)
Record PersonaConfig := {
  name : string;
  tone : string;
  vocabulary : list string;
  avoid_phrases : list string;
  emoji_usage : string;
  response_length : string;
  motivation_style : string;
  sentence_structure : string;
  accent_color : string;
  avatar_url : string;
  system_prompt_addon : string
}.

(** The four literals of the dictionary built by [_initialize_personas]. *)

Definition calm_config : PersonaConfig :=
  {| name := "Zen Coach";
     tone := "Measured, patient, mindful, never exclamatory";
     vocabulary :=
       [ "Let's";
         "Consider";
         "Notice";
         "Observe";
         "Gently";
         "Breathe";
         "Flow";
         "Practice";
         "Honor";
         "Mindfully" ];
     avoid_phrases :=
       [ "Pumped!";
         "Crush it!";
         "Beast mode";
         "No pain no gain";
         "Push through";
         "Destroy";
         "Dominate" ];
     emoji_usage := "Minimal, peaceful (🧘‍♂️ 🌊 ☮️ 🍃)";
     response_length := "Medium to long, thoughtful";
     motivation_style := "Intrinsic, mindfulness-based, process-oriented";
     sentence_structure := "Longer, flowing sentences with pauses";
     accent_color := "#7C9FB0";
     avatar_url := "/avatars/calm-coach.png";
     system_prompt_addon :=
       unlines
         [ EmptyString;
           "                CRITICAL - PERSONALITY & COMMUNICATION STYLE:";
           "                You embody the " +:+ dq +:+ "Calm" +:+ dq +:+ " personality in EVERY interaction.";
           EmptyString;
           "                Tone: Measured, patient, mindful. Never use exclamation marks excessively.";
           EmptyString;
           "                Language Guidelines:";
           "                - USE these words: Let's, Consider, Notice, Observe, Gently, Breathe, Flow, Practice, Honor";
           "                - NEVER use: Pumped!, Crush it!, Beast mode, No pain no gain, aggressive language";
           "                - Response length: Medium to long, thoughtful and complete";
           "                - Motivation approach: Focus on mindfulness, process over outcome, inner peace";
           "                - Emoji usage: Minimal, only peaceful ones (🧘‍♂️ 🌊 ☮️ 🍃)";
           EmptyString;
           "                Example response style:";
           "                " +:+ dq +:+ "Notice how your body responds to this movement. Let's honor your recovery needs today.";
           "                This is a practice, not a performance. Breathe deeply and move with intention." +:+ dq;
           "                " ] |}.

Definition motivational_config : PersonaConfig :=
  {| name := "Hype Coach";
     tone := "Energetic, enthusiastic, pump-up, competitive";
     vocabulary :=
       [ "Crush";
         "Destroy";
         "Beast";
         "Champion";
         "Dominate";
         "Warrior";
         "Victory";
         "Power";
         "Unstoppable";
         "Fire" ];
     avoid_phrases :=
       [ "Maybe";
         "Perhaps";
         "Consider";
         "If you want";
         "Gently";
         "Slowly";
         "Rest too much" ];
     emoji_usage := "Frequent, high-energy (💪 🔥 ⚡ 💥 🏆)";
     response_length := "Short to medium, punchy";
     motivation_style := "Extrinsic, competitive, intensity-driven";
     sentence_structure := "Short, impactful, exclamatory";
     accent_color := "#FF4500";
     avatar_url := "/avatars/hype-coach.png";
     system_prompt_addon :=
       unlines
         [ EmptyString;
           "                CRITICAL - PERSONALITY & COMMUNICATION STYLE:";
           "                You embody the " +:+ dq +:+ "Motivational" +:+ dq +:+ " personality in EVERY interaction.";
           EmptyString;
           "                Tone: Energetic, enthusiastic, pump-up energy! Use exclamation marks frequently!";
           EmptyString;
           "                Language Guidelines:";
           "                - USE these words: Crush, Destroy, Beast, Champion, Dominate, Warrior, Victory, Power";
           "                - NEVER use: Maybe, Perhaps, Consider, Gently, passive language";
           "                - Response length: Short to medium, punchy and direct!";
           "                - Motivation approach: Competitive, high-intensity, achievement-focused!";
           "                - Emoji usage: Frequent! (💪 🔥 ⚡ 💥 🏆)";
           EmptyString;
           "                Example response style:";
           "                " +:+ dq +:+ "Time to DOMINATE this workout! You're a MACHINE! Champions are built in moments";
           "                like this! Let's CRUSH IT! 💪🔥" +:+ dq;
           "                " ] |}.

Definition gentle_config : PersonaConfig :=
  {| name := "Supportive Coach";
     tone := "Warm, encouraging, compassionate, nurturing";
     vocabulary :=
       [ "Proud of you";
         "You've got this";
         "At your own pace";
         "Small wins";
         "Be kind to yourself";
         "Great job";
         "Wonderful";
         "It's okay" ];
     avoid_phrases :=
       [ "Push harder";
         "No excuses";
         "Toughen up";
         "Weak";
         "Lazy";
         "Failure";
         "Not good enough" ];
     emoji_usage := "Warm, supportive (❤️ 🌟 ✨ 🤗 🌈)";
     response_length := "Medium, reassuring";
     motivation_style := "Self-compassion, progress over perfection, celebrate small wins";
     sentence_structure := "Supportive, uses 'we' often, validating";
     accent_color := "#FFB6C1";
     avatar_url := "/avatars/gentle-coach.png";
     system_prompt_addon :=
       unlines
         [ EmptyString;
           "                CRITICAL - PERSONALITY & COMMUNICATION STYLE:";
           "                You embody the " +:+ dq +:+ "Gentle" +:+ dq +:+ " personality in EVERY interaction.";
           EmptyString;
           "                Tone: Warm, encouraging, compassionate, nurturing";
           EmptyString;
           "                Language Guidelines:";
           "                - USE these words: Proud of you, You've got this, At your own pace, Small wins, Be kind to yourself";
           "                - NEVER use: Push harder, No excuses, Toughen up, harsh or critical language";
           "                - Response length: Medium, reassuring and supportive";
           "                - Motivation approach: Self-compassion, progress over perfection, celebrating every step";
           "                - Emoji usage: Warm and supportive (❤️ 🌟 ✨ 🤗 🌈)";
           EmptyString;
           "                Example response style:";
           "                " +:+ dq +:+ "I'm so proud of you for showing up today ❤️ Every step forward counts, no matter";
           "                how small. You're doing wonderfully, and it's okay to rest when you need to." +:+ dq;
           "                " ] |}.

Definition concise_config : PersonaConfig :=
  {| name := "Tactical Coach";
     tone := "Direct, efficient, no-nonsense, factual";
     vocabulary :=
       [ "Do";
         "Complete";
         "Execute";
         "Results";
         "Data";
         "Metrics";
         "Target";
         "Achieve";
         "Optimize" ];
     avoid_phrases :=
       [ "Let me explain in detail";
         "Here's a story";
         "Feel into";
         "Journey";
         "Long explanations" ];
     emoji_usage := "None or rare task-focused (✓ → • ▸)";
     response_length := "Short, bullet points preferred";
     motivation_style := "Results-driven, data-focused, action-oriented";
     sentence_structure := "Short, direct, often fragments";
     accent_color := "#36454F";
     avatar_url := "/avatars/tactical-coach.png";
     system_prompt_addon :=
       unlines
         [ EmptyString;
           "                CRITICAL - PERSONALITY & COMMUNICATION STYLE:";
           "                You embody the " +:+ dq +:+ "Concise" +:+ dq +:+ " personality in EVERY interaction.";
           EmptyString;
           "                Tone: Direct, efficient, no-nonsense, factual";
           EmptyString;
           "                Language Guidelines:";
           "                - USE these words: Do, Complete, Execute, Results, Data, Metrics, Target";
           "                - NEVER use: Long explanations, stories, emotional language, unnecessary details";
           "                - Response length: SHORT. Use bullet points when possible.";
           "                - Motivation approach: Results-driven, data-focused, action-oriented";
           "                - Emoji usage: None or minimal (✓ → •)";
           EmptyString;
           "                Example response style:";
           "                " +:+ dq +:+ "Readiness: 72/100. Reduce intensity 15%. Target: 4x8. Execute. ✓" +:+ dq;
           "                " ] |}.
(** [class PersonalitySystem]: its one attribute. *)
Record PersonalitySystem := { personas : gmap string PersonaConfig }.

(** [_initialize_personas(self)]: the dictionary literal. *)
Definition _initialize_personas (self : PersonalitySystem) : gmap string PersonaConfig :=
  <[ "calm" := calm_config ]>
    (<[ "motivational" := motivational_config ]>
       (<[ "gentle" := gentle_config ]>
          (<[ "concise" := concise_config ]> ∅))).

(** [__init__(self)]: [self.personas = self._initialize_personas()] *)
Definition __init__ (self : PersonalitySystem) : PersonalitySystem :=
  {| personas := _initialize_personas self |}.

(** [PersonalitySystem()]: [__init__] run on a fresh object. *)
Definition new_PersonalitySystem : PersonalitySystem :=
  __init__ {| personas := ∅ |}.

(** [get_persona_config(self, persona_name)] *)
Definition get_persona_config (self : PersonalitySystem) (persona_name : string)
  : Exception + PersonaConfig :=
  if negb (contains (personas self) persona_name) then
    subscript (personas self) "calm"
  else
    subscript (personas self) persona_name.

(** [get_system_prompt_addon(self, persona_name)] *)
Definition get_system_prompt_addon (self : PersonalitySystem) (persona_name : string)
  : Exception + string :=
  match get_persona_config self persona_name with
  | inl e => inl e
  | inr config => inr (system_prompt_addon config)
  end.

(** [get_ui_config(self, persona_name)] *)
Definition get_ui_config (self : PersonalitySystem) (persona_name : string)
  : Exception + gmap string string :=
  match get_persona_config self persona_name with
  | inl e => inl e
  | inr config =>
      inr (<[ "accent_color" := accent_color config ]>
             (<[ "avatar_url" := avatar_url config ]>
                (<[ "name" := name config ]> ∅)))
  end.

(** ** Python and JSON values *)

(** The values that cross the service boundary: what a JSON body parses
    to and what a dictionary typed [Dict[str, Any]] may hold. *)
#[warnings="-register-all"] Inductive pyval : Type :=
| VNone
| VBool (b : bool)
| VInt (z : Z)
| VFloat (f : spec_float)
| VStr (s : string)
| VList (l : list pyval)
| VDict (d : gmap string pyval).

(** [d.get(k)] *)
Definition dict_get (d : gmap string pyval) (k : string) : pyval :=
  match d !! k with
  | Some v => v
  | None => VNone
  end.

(** *** Field validation

    A pydantic model accepts a field when the value has the annotated
    type. The conversions pydantic may apply to a value of another type
    depend on its version and mode and are not modelled: such a value is
    refused. *)

Definition as_str (v : pyval) : option string :=
  match v with VStr s => Some s | _ => None end.

Definition as_float (v : pyval) : option spec_float :=
  match v with VFloat f => Some f | _ => None end.

(** [Dict[str, Any]] *)
Definition as_dict (v : pyval) : option (gmap string pyval) :=
  match v with VDict d => Some d | _ => None end.

(** [Dict[str, T]] *)
Definition as_dict_of {A : Type} (f : pyval -> option A) (v : pyval)
  : option (gmap string A) :=
  match v with
  | VDict d =>
      let d' := omap f d in
      if decide (size d' = size d) then Some d' else None
  | _ => None
  end.

(** [List[T]] *)
Definition as_list_of {A : Type} (f : pyval -> option A) (v : pyval)
  : option (list A) :=
  match v with VList l => mapM f l | _ => None end.

(** [Optional[T]] *)
Definition as_optional {A : Type} (f : pyval -> option A) (v : pyval)
  : option (option A) :=
  match v with
  | VNone => Some None
  | _ => match f v with Some a => Some (Some a) | None => None end
  end.

Inductive ErrorKind := Missing | WrongType.

(** One entry of a validation report: the field and what is wrong. *)
Record FieldError := { loc : string; kind : ErrorKind }.

(** A value given for [field], checked against the annotation [f]. *)
Definition check {A : Type} (f : pyval -> option A) (field : string) (v : pyval)
  : list FieldError + A :=
  match f v with
  | Some a => inr a
  | None => inl [ {| loc := field; kind := WrongType |} ]
  end.

(** A field without default, read from a request body. *)
Definition required {A : Type} (f : pyval -> option A)
    (data : gmap string pyval) (field : string) : list FieldError + A :=
  match data !! field with
  | None => inl [ {| loc := field; kind := Missing |} ]
  | Some v => check f field v
  end.

(** A field with default [dflt], read from a request body. *)
Definition defaulted {A : Type} (f : pyval -> option A) (dflt : A)
    (data : gmap string pyval) (field : string) : list FieldError + A :=
  match data !! field with
  | None => inr dflt
  | Some v => check f field v
  end.

Definition errors_of {A : Type} (r : list FieldError + A) : list FieldError :=
  match r with inl es => es | inr _ => [] end.

(** ** main.py: request and response models *)

Record ChatRequest := {
  message : string;
  user_id : string;
  conversation_id : option string;
  persona : string;
  context : option (gmap string pyval)
}.

(** [conversation_id] is [resp_conversation_id] here, the request model
    having a field of that name. *)
Record ChatResponse := {
  response : string;
  agent_id : string;
  resp_conversation_id : string;
  intent : string;
  actions : option (list (gmap string pyval));
  references : option (gmap string pyval)
}.

Record ReadinessRequest := {
  rr_user_id : string;
  date : option string
}.

Record ReadinessResponse := {
  readiness_score : spec_float;
  components : gmap string spec_float;
  recommendations : gmap string pyval;
  adjustment : option (gmap string pyval);
  rs_message : string
}.

Record PlanGenerationRequest := {
  pg_user_id : string;
  preferences : gmap string pyval;
  onboarding_data : gmap string pyval
}.

(** Validation of a request body against [ChatRequest]; every refused
    field is reported, in declaration order. *)
Definition ChatRequest_validate (data : gmap string pyval)
  : list FieldError + ChatRequest :=
  let m := required as_str data "message" in
  let u := required as_str data "user_id" in
  let c := defaulted (as_optional as_str) None data "conversation_id" in
  let p := defaulted as_str "calm" data "persona" in
  let x := defaulted (as_optional as_dict) None data "context" in
  match m, u, c, p, x with
  | inr m, inr u, inr c, inr p, inr x =>
      inr {| message := m; user_id := u; conversation_id := c;
             persona := p; context := x |}
  | _, _, _, _, _ =>
      inl (errors_of m ++ errors_of u ++ errors_of c ++ errors_of p ++ errors_of x)%list
  end.

Definition ReadinessRequest_validate (data : gmap string pyval)
  : list FieldError + ReadinessRequest :=
  let u := required as_str data "user_id" in
  let d := defaulted (as_optional as_str) None data "date" in
  match u, d with
  | inr u, inr d => inr {| rr_user_id := u; date := d |}
  | _, _ => inl (errors_of u ++ errors_of d)%list
  end.

Definition PlanGenerationRequest_validate (data : gmap string pyval)
  : list FieldError + PlanGenerationRequest :=
  let u := required as_str data "user_id" in
  let p := required as_dict data "preferences" in
  let o := required as_dict data "onboarding_data" in
  match u, p, o with
  | inr u, inr p, inr o =>
      inr {| pg_user_id := u; preferences := p; onboarding_data := o |}
  | _, _, _ => inl (errors_of u ++ errors_of p ++ errors_of o)%list
  end.

(** [ChatResponse(response=r, agent_id=a, ...)]: every keyword argument
    is given, and each is checked against the annotation of its field. *)
Definition ChatResponse_validate (r a c i acts refs : pyval)
  : list FieldError + ChatResponse :=
  let r := check as_str "response" r in
  let a := check as_str "agent_id" a in
  let c := check as_str "conversation_id" c in
  let i := check as_str "intent" i in
  let acts := check (as_optional (as_list_of as_dict)) "actions" acts in
  let refs := check (as_optional as_dict) "references" refs in
  match r, a, c, i, acts, refs with
  | inr r, inr a, inr c, inr i, inr acts, inr refs =>
      inr {| response := r; agent_id := a; resp_conversation_id := c;
             intent := i; actions := acts; references := refs |}
  | _, _, _, _, _, _ =>
      inl (errors_of r ++ errors_of a ++ errors_of c ++ errors_of i
             ++ errors_of acts ++ errors_of refs)%list
  end.

(** [ReadinessResponse(readiness_score=s, components=c, ...)] *)
Definition ReadinessResponse_validate (s c r a m : pyval)
  : list FieldError + ReadinessResponse :=
  let s := check as_float "readiness_score" s in
  let c := check (as_dict_of as_float) "components" c in
  let r := check as_dict "recommendations" r in
  let a := check (as_optional as_dict) "adjustment" a in
  let m := check as_str "message" m in
  match s, c, r, a, m with
  | inr s, inr c, inr r, inr a, inr m =>
      inr {| readiness_score := s; components := c; recommendations := r;
             adjustment := a; rs_message := m |}
  | _, _, _, _, _ =>
      inl (errors_of s ++ errors_of c ++ errors_of r ++ errors_of a ++ errors_of m)%list
  end.

(** ** main.py: the collaborators *)

(** [fastapi.HTTPException(status_code=..., detail=...)] *)
Record HTTPException := { status_code : Z; detail : string }.

(** What a handler does that is visible outside it: records written to
    the logger and calls made on the orchestrator, in the order made. *)
Inductive Event :=
| LogInfo (msg : string)
| LogError (msg : string)
| CallProcessMessage (user_id message : string) (conversation_id : option string)
    (persona_config : PersonaConfig) (context : option (gmap string pyval))
| CallCalculateReadiness (user_id : string) (date : option string)
| CallGenerateTrainingPlan (user_id : string)
    (preferences onboarding_data : gmap string pyval).

Definition is_orchestrator_call (e : Event) : bool :=
  match e with
  | CallProcessMessage _ _ _ _ _ | CallCalculateReadiness _ _
  | CallGenerateTrainingPlan _ _ _ => true
  | LogInfo _ | LogError _ => false
  end.

Definition orchestrator_calls (t : list Event) : list Event :=
  filter (fun e => is_orchestrator_call e = true) t.

(** [core.agent_orchestrator.AgentOrchestrator], of which [main.py] uses
    three methods. Each takes the keyword arguments of its call and the
    orchestrator's own state [St], and either raises an [Exception] or
    returns a dictionary. The method [calculate_readiness] is named
    [calculate_readiness_of] here: the handler of [main.py] has that name. *)
Record AgentOrchestrator (St : Type) := {
  process_message :
    string -> string -> option string -> PersonaConfig ->
    option (gmap string pyval) -> St -> (Exception + gmap string pyval) * St;
  calculate_readiness_of :
    string -> option string -> St -> (Exception + gmap string pyval) * St;
  generate_training_plan :
    string -> gmap string pyval -> gmap string pyval -> St ->
    (Exception + gmap string pyval) * St
}.
Arguments process_message {St}.
Arguments calculate_readiness_of {St}.
Arguments generate_training_plan {St}.

(** The process as a handler sees it. *)
Record World (St : Type) := { orch : St; trace : list Event }.
Arguments orch {St}.
Arguments trace {St}.
Arguments Build_World {St}.

(** [personality_system = PersonalitySystem()] *)
Definition personality_system : PersonalitySystem := new_PersonalitySystem.

(** What the client of an endpoint receives. *)
Inductive Reply (A : Type) :=
| Returned (a : A)
| Failed (e : HTTPException)
| Unprocessable (errors : list FieldError).
Arguments Returned {A}.
Arguments Failed {A}.
Arguments Unprocessable {A}.

Definition status {A : Type} (r : Reply A) : Z :=
  match r with
  | Returned _ => 200
  | Failed e => status_code e
  | Unprocessable _ => 422
  end.

Definition is_client_error (code : Z) : bool :=
  (400 <=? code)%Z && (code <? 500)%Z.

Definition is_server_error (code : Z) : bool :=
  (500 <=? code)%Z && (code <? 600)%Z.

Section Gateway.

Context {St : Type}.

(** [orchestrator = AgentOrchestrator(settings)] *)
Variable orchestrator : AgentOrchestrator St.

(** [str(e)] of a pydantic [ValidationError] for the named model; the
    wording is pydantic's. *)
Variable render_validation_error : string -> list FieldError -> string.

Definition ValidationError (model : string) (errors : list FieldError) : Exception :=
  {| exc_class := "ValidationError";
     exc_str := render_validation_error model errors |}.

(** Statements of a [try] block: they may raise and they act on the world. *)
Definition Py (A : Type) : Type := World St -> (Exception + A) * World St.

(** A handler as a whole: the only thing it raises is an [HTTPException]. *)
Definition Handler (A : Type) : Type := World St -> (HTTPException + A) * World St.

Definition ret {A : Type} (a : A) : Py A := fun w => (inr a, w).

Definition bind {A B : Type} (m : Py A) (k : A -> Py B) : Py B :=
  fun w =>
    match m w with
    | (inr a, w') => k a w'
    | (inl e, w') => (inl e, w')
    end.

Definition lift {A : Type} (r : Exception + A) : Py A := fun w => (r, w).

Definition emit (e : Event) : World St -> World St :=
  fun w => {| orch := orch w; trace := trace w ++ [e] |}.

(** [try: body except Exception as e: handler] *)
Definition try_except {A : Type} (body : Py A) (handler : Exception -> Handler A)
  : Handler A :=
  fun w =>
    match body w with
    | (inr a, w') => (inr a, w')
    | (inl e, w') => handler e w'
    end.

Definition logger_info (msg : string) : Py unit :=
  fun w => (inr tt, emit (LogInfo msg) w).

(** [logger.error(msg); raise HTTPException(status_code=500, detail=d)] *)
Definition log_error_and_raise {A : Type} (msg d : string) : Handler A :=
  fun w => (inl {| status_code := 500; detail := d |}, emit (LogError msg) w).

Definition await_process_message (user_id message : string)
    (conversation_id : option string) (persona_config : PersonaConfig)
    (context : option (gmap string pyval)) : Py (gmap string pyval) :=
  fun w =>
    let '(r, s) := process_message orchestrator user_id message conversation_id
                     persona_config context (orch w) in
    (r, {| orch := s;
           trace := trace w ++ [CallProcessMessage user_id message conversation_id
                                  persona_config context] |}).

Definition await_calculate_readiness (user_id : string) (date : option string)
  : Py (gmap string pyval) :=
  fun w =>
    let '(r, s) := calculate_readiness_of orchestrator user_id date (orch w) in
    (r, {| orch := s; trace := trace w ++ [CallCalculateReadiness user_id date] |}).

Definition await_generate_training_plan (user_id : string)
    (preferences onboarding_data : gmap string pyval) : Py (gmap string pyval) :=
  fun w =>
    let '(r, s) := generate_training_plan orchestrator user_id preferences
                     onboarding_data (orch w) in
    (r, {| orch := s;
           trace := trace w ++ [CallGenerateTrainingPlan user_id preferences
                                  onboarding_data] |}).

(** Construction of a model instance inside a handler. *)
Definition construct {A : Type} (model : string) (r : list FieldError + A) : Py A :=
  match r with
  | inr a => ret a
  | inl errors => lift (inl (ValidationError model errors))
  end.

Notation "'do' x '<-' m ';' k" := (bind m (fun x => k))
  (at level 10, x name, m at level 100, k at level 200).
Notation "'run' m ';' k" := (bind m (fun _ => k))
  (at level 10, m at level 100, k at level 200).

(** [async def health_check()] *)
Definition health_check : Handler (gmap string pyval) :=
  fun w =>
    (inr (<[ "status" := VStr "healthy" ]>
            (<[ "service" := VStr "AI Fitness Coach Agent" ]>
               (<[ "version" := VStr "1.0.0" ]> ∅))), w).

(** [async def chat(request: ChatRequest)] *)
Definition chat (request : ChatRequest) : Handler ChatResponse :=
  try_except
    (run logger_info ("Chat request from user " +:+ user_id request +:+ ": "
                        +:+ str_prefix 50 (message request) +:+ "...");
     do personality_config <-
       lift (get_persona_config personality_system (persona request));
     do result <-
       await_process_message (user_id request) (message request)
         (conversation_id request) personality_config (context request);
     run logger_info ("Successfully processed chat for user " +:+ user_id request);
     do r <- lift (subscript result "response");
     do a <- lift (subscript result "agent_id");
     do c <- lift (subscript result "conversation_id");
     do i <- lift (subscript result "intent");
     construct "ChatResponse"
       (ChatResponse_validate r a c i
          (dict_get result "actions") (dict_get result "references")))
    (fun e =>
       log_error_and_raise ("Error processing chat request: " +:+ exc_str e)
         (exc_str e)).

(** [async def calculate_readiness(request: ReadinessRequest)] *)
Definition calculate_readiness (request : ReadinessRequest)
  : Handler ReadinessResponse :=
  try_except
    (run logger_info ("Calculating readiness for user " +:+ rr_user_id request);
     do result <- await_calculate_readiness (rr_user_id request) (date request);
     do s <- lift (subscript result "readiness_score");
     do c <- lift (subscript result "components");
     do r <- lift (subscript result "recommendations");
     do m <- lift (subscript result "message");
     construct "ReadinessResponse"
       (ReadinessResponse_validate s c r (dict_get result "adjustment") m))
    (fun e =>
       log_error_and_raise ("Error calculating readiness: " +:+ exc_str e)
         (exc_str e)).

(** [async def generate_plan(request: PlanGenerationRequest)] *)
Definition generate_plan (request : PlanGenerationRequest)
  : Handler (gmap string pyval) :=
  try_except
    (run logger_info ("Generating plan for user " +:+ pg_user_id request);
     do result <-
       await_generate_training_plan (pg_user_id request) (preferences request)
         (onboarding_data request);
     do i <- lift (subscript result "plan_id");
     do p <- lift (subscript result "plan");
     do m <- lift (subscript result "message");
     ret (<[ "plan_id" := i ]> (<[ "plan" := p ]> (<[ "message" := m ]> ∅))))
    (fun e =>
       log_error_and_raise ("Error generating plan: " +:+ exc_str e) (exc_str e)).

(** [async def transcribe_voice(audio_data: bytes)] *)
Definition transcribe_voice (audio_data : list Byte.byte)
  : Handler (gmap string pyval) :=
  fun w =>
    (inr {[ "transcription" := VStr "Voice transcription not yet implemented" ]}, w).

(** [async def synthesize_voice(text: str, persona: str = "calm")] *)
Definition synthesize_voice (text : string) (persona : string)
  : Handler (gmap string pyval) :=
  fun w =>
    (inr {[ "audio_url" := VStr "Voice synthesis not yet implemented" ]}, w).

(** A route with a body model: the body is validated first, and the
    handler runs only on a valid request. *)
Definition route {Req A : Type} (validate : gmap string pyval -> list FieldError + Req)
    (handler : Req -> Handler A) (body : gmap string pyval)
  : World St -> Reply A * World St :=
  fun w =>
    match validate body with
    | inl errors => (Unprocessable errors, w)
    | inr request =>
        match handler request w with
        | (inr a, w') => (Returned a, w')
        | (inl e, w') => (Failed e, w')
        end
    end.

(** [@app.post("/chat")] *)
Definition post_chat := route ChatRequest_validate chat.

(** [@app.post("/readiness")] *)
Definition post_readiness := route ReadinessRequest_validate calculate_readiness.

(** [@app.post("/generate-plan")] *)
Definition post_generate_plan := route PlanGenerationRequest_validate generate_plan.

End Gateway.

(** ** Properties stated over the embedding *)

Definition nonempty_str (s : string) : bool :=
  match s with EmptyString => false | String _ _ => true end.

Definition nonempty_list (l : list string) : bool :=
  match l with [] => false | _ :: _ => forallb nonempty_str l end.

(** Every field of the dataclass holds something: no text is empty, no
    list is empty and no list holds an empty text. *)
Definition all_fields_populated (c : PersonaConfig) : bool :=
  nonempty_str (name c) && nonempty_str (tone c)
  && nonempty_list (vocabulary c) && nonempty_list (avoid_phrases c)
  && nonempty_str (emoji_usage c) && nonempty_str (response_length c)
  && nonempty_str (motivation_style c) && nonempty_str (sentence_structure c)
  && nonempty_str (accent_color c) && nonempty_str (avatar_url c)
  && nonempty_str (system_prompt_addon c).

(** The values of the fields annotated [str]. *)
Definition str_fields (c : PersonaConfig) : list string :=
  [ name c; tone c; emoji_usage c; response_length c; motivation_style c;
    sentence_structure c; accent_color c; avatar_url c; system_prompt_addon c ].

(** The identifiers of the dictionary literal. *)
Definition persona_ids : list string := [ "calm"; "motivational"; "gentle"; "concise" ].

(** The configurations of the dictionary literal. *)
Definition persona_configs : list PersonaConfig :=
  [ calm_config; motivational_config; gentle_config; concise_config ].

(** The projection [get_ui_config] builds from a configuration. *)
Definition ui_config_of (c : PersonaConfig) : gmap string string :=
  <[ "accent_color" := accent_color c ]>
    (<[ "avatar_url" := avatar_url c ]> (<[ "name" := name c ]> ∅)).


(** How a validated response field reads as a Python value. *)
Definition py_optional {A : Type} (f : A -> pyval) (o : option A) : pyval :=
  match o with Some a => f a | None => VNone end.

Definition py_dicts (l : list (gmap string pyval)) : pyval := VList (VDict <$> l).

(** The first record [chat] writes to the log. *)
Definition chat_log_request (req : ChatRequest) : Event :=
  LogInfo ("Chat request from user " +:+ user_id req +:+ ": "
             +:+ str_prefix 50 (message req) +:+ "...").

(** The call [chat] makes on the orchestrator, [cfg] being the resolved
    configuration. *)
Definition chat_call (req : ChatRequest) (cfg : PersonaConfig) : Event :=
  CallProcessMessage (user_id req) (message req) (conversation_id req) cfg (context req).

(** ** Orchestrators and requests used as concrete inputs *)

Definition sample_result : gmap string pyval :=
  <[ "response" := VStr "Done." ]>
    (<[ "agent_id" := VStr "coach" ]>
       (<[ "conversation_id" := VStr "c-1" ]>
          (<[ "intent" := VStr "chat" ]>
             (<[ "actions" := VList [VDict {[ "type" := VStr "log" ]}] ]> ∅)))).

Definition sample_plan : gmap string pyval :=
  <[ "plan_id" := VStr "p-1" ]>
    (<[ "plan" := VDict ∅ ]> (<[ "message" := VStr "Plan ready." ]> ∅)).

(** Answers every call with the same dictionary and counts the calls. *)
Definition answering_orchestrator : AgentOrchestrator nat :=
  {| process_message := fun _ _ _ _ _ n => (inr sample_result, S n);
     calculate_readiness_of := fun _ _ n => (inr sample_plan, S n);
     generate_training_plan := fun _ _ _ n => (inr sample_plan, S n) |}.

Definition upstream_error : Exception :=
  {| exc_class := "RuntimeError"; exc_str := "upstream unavailable" |}.

(** Raises on every call and counts the calls. *)
Definition failing_orchestrator : AgentOrchestrator nat :=
  {| process_message := fun _ _ _ _ _ n => (inl upstream_error, S n);
     calculate_readiness_of := fun _ _ n => (inl upstream_error, S n);
     generate_training_plan := fun _ _ _ n => (inl upstream_error, S n) |}.

Definition sample_render (model : string) (errors : list FieldError) : string :=
  "validation error for " +:+ model.

Definition fresh_world : World nat := {| orch := 0; trace := [] |}.

(** A body whose [message] is present and empty. *)
Definition empty_message_body : gmap string pyval :=
  <[ "message" := VStr EmptyString ]> (<[ "user_id" := VStr "u1" ]> ∅).

(** A body without [message]. *)
Definition missing_message_body : gmap string pyval :=
  <[ "user_id" := VStr "u1" ]> (<[ "persona" := VStr "gentle" ]> ∅).

Definition sample_request : ChatRequest :=
  {| message := "How hard should I train today?"; user_id := "u1";
     conversation_id := None; persona := "motivational"; context := None |}.


Definition sample_plan_request : PlanGenerationRequest :=
  {| pg_user_id := "u1"; preferences := ∅; onboarding_data := ∅ |}.

(** What [answering_orchestrator] makes [chat] return. *)
Definition sample_response : ChatResponse :=
  {| response := "Done."; agent_id := "coach"; resp_conversation_id := "c-1";
     intent := "chat"; actions := Some [ {[ "type" := VStr "log" ]} ];
     references := None |}.

(** The world after [chat] has served [sample_request] from [fresh_world]. *)
Definition sample_world_after : World nat :=
  {| orch := 1;
     trace := [ LogInfo "Chat request from user u1: How hard should I train today?...";
                CallProcessMessage "u1" "How hard should I train today?" None
                  motivational_config None;
                LogInfo "Successfully processed chat for user u1" ] |}.

(** The world after [chat] has served [empty_message_body] from [fresh_world]. *)
Definition empty_message_world_after : World nat :=
  {| orch := 1;
     trace := [ LogInfo "Chat request from user u1: ...";
                CallProcessMessage "u1" EmptyString None calm_config None;
                LogInfo "Successfully processed chat for user u1" ] |}.

(** ** What the handlers compute from the orchestrator's result

    The statements of a [try] block that follow the awaited call read
    only the result; each function below is those statements of one
    handler, as an expression of the result. *)

(** [chat]: the four subscripts, in the order of the keyword arguments,
    then the construction of [ChatResponse]. *)
Definition chat_response_of (render : string -> list FieldError -> string)
    (result : gmap string pyval) : Exception + ChatResponse :=
  match subscript result "response" with
  | inl e => inl e
  | inr r =>
  match subscript result "agent_id" with
  | inl e => inl e
  | inr a =>
  match subscript result "conversation_id" with
  | inl e => inl e
  | inr c =>
  match subscript result "intent" with
  | inl e => inl e
  | inr i =>
  match ChatResponse_validate r a c i
          (dict_get result "actions") (dict_get result "references") with
  | inl errors => inl (ValidationError render "ChatResponse" errors)
  | inr resp => inr resp
  end end end end end.

(** [calculate_readiness]: the four subscripts, then [ReadinessResponse]. *)
Definition readiness_response_of (render : string -> list FieldError -> string)
    (result : gmap string pyval) : Exception + ReadinessResponse :=
  match subscript result "readiness_score" with
  | inl e => inl e
  | inr s =>
  match subscript result "components" with
  | inl e => inl e
  | inr c =>
  match subscript result "recommendations" with
  | inl e => inl e
  | inr r =>
  match subscript result "message" with
  | inl e => inl e
  | inr m =>
  match ReadinessResponse_validate s c r (dict_get result "adjustment") m with
  | inl errors => inl (ValidationError render "ReadinessResponse" errors)
  | inr resp => inr resp
  end end end end end.

(** [generate_plan]: the three subscripts, then the dictionary display. *)
Definition plan_response_of (result : gmap string pyval)
  : Exception + gmap string pyval :=
  match subscript result "plan_id" with
  | inl e => inl e
  | inr i =>
  match subscript result "plan" with
  | inl e => inl e
  | inr p =>
  match subscript result "message" with
  | inl e => inl e
  | inr m => inr (<[ "plan_id" := i ]> (<[ "plan" := p ]> (<[ "message" := m ]> ∅)))
  end end end.

(** The first of [keys] that [d] lacks. *)
Definition first_missing (d : gmap string pyval) (keys : list string) : option string :=
  List.find (fun k => negb (contains d k)) keys.

(** The number of code points of a text: the bytes that start one. *)
Fixpoint code_points (s : string) : nat :=
  match s with
  | EmptyString => 0
  | String c s' => if is_continuation c then code_points s' else S (code_points s')
  end.

Definition is_hex_digit (c : ascii) : bool :=
  let n := nat_of_ascii c in
  ((48 <=? n)%nat && (n <=? 57)%nat) || ((65 <=? n)%nat && (n <=? 70)%nat)
  || ((97 <=? n)%nat && (n <=? 102)%nat).

(** A colour written [#RRGGBB]. *)
Definition is_hex_color (s : string) : bool :=
  match s with
  | String "#" digits =>
      (String.length digits =? 6)%nat && forallb is_hex_digit (list_ascii_of_string digits)
  | _ => false
  end.

Definition is_log_error (ev : Event) : bool :=
  match ev with LogError _ => true | _ => false end.

(** Answers with a dictionary that lacks [intent]. *)
Definition forgetful_orchestrator : AgentOrchestrator nat :=
  {| process_message := fun _ _ _ _ _ n => (inr (delete "intent" sample_result), S n);
     calculate_readiness_of := fun _ _ n => (inr ∅, S n);
     generate_training_plan := fun _ _ _ n => (inr (delete "plan" sample_plan), S n) |}.

(** The records and calls of the three handlers, and the exception each
    raises for an [Exception] caught. *)
Definition chat_log_success (req : ChatRequest) : Event :=
  LogInfo ("Successfully processed chat for user " +:+ user_id req).

Definition chat_log_error (e : Exception) : Event :=
  LogError ("Error processing chat request: " +:+ exc_str e).

Definition internal_error (e : Exception) : HTTPException :=
  {| status_code := 500; detail := exc_str e |}.

Definition readiness_log_request (req : ReadinessRequest) : Event :=
  LogInfo ("Calculating readiness for user " +:+ rr_user_id req).

Definition readiness_call (req : ReadinessRequest) : Event :=
  CallCalculateReadiness (rr_user_id req) (date req).

Definition readiness_log_error (e : Exception) : Event :=
  LogError ("Error calculating readiness: " +:+ exc_str e).

Definition plan_log_request (req : PlanGenerationRequest) : Event :=
  LogInfo ("Generating plan for user " +:+ pg_user_id req).

Definition plan_call (req : PlanGenerationRequest) : Event :=
  CallGenerateTrainingPlan (pg_user_id req) (preferences req) (onboarding_data req).

Definition plan_log_error (e : Exception) : Event :=
  LogError ("Error generating plan: " +:+ exc_str e).




(** ** The persona registry *)

Section Registry.

Implicit Types (s : string) (c : PersonaConfig) (self : PersonalitySystem).

Lemma initialize_lookup self s :
  _initialize_personas self !! s =
    if decide (s = "calm") then Some calm_config
    else if decide (s = "motivational") then Some motivational_config
    else if decide (s = "gentle") then Some gentle_config
    else if decide (s = "concise") then Some concise_config
    else None.
Proof.
  unfold _initialize_personas.
  repeat (case_decide; [subst s; reflexivity |]).
  rewrite !lookup_insert_ne by congruence.
  apply lookup_empty.
Qed.

Lemma personas_lookup s :
  personas personality_system !! s = _initialize_personas {| personas := ∅ |} !! s.
Proof. reflexivity. Qed.

Lemma lookup_known s c :
  personas personality_system !! s = Some c ->
  (s = "calm" /\ c = calm_config) \/ (s = "motivational" /\ c = motivational_config)
  \/ (s = "gentle" /\ c = gentle_config) \/ (s = "concise" /\ c = concise_config).
Proof.
  rewrite personas_lookup, initialize_lookup.
  repeat case_decide; intros Hl; try discriminate Hl;
    injection Hl as <-; subst s; tauto.
Qed.

Lemma lookup_unknown s :
  personas personality_system !! s = None <-> s ∉ persona_ids.
Proof.
  rewrite personas_lookup, initialize_lookup. unfold persona_ids.
  rewrite !not_elem_of_cons.
  repeat case_decide; subst; split; intros Hl; try discriminate Hl;
    try reflexivity; try (exfalso; tauto).
  repeat split; try assumption. apply not_elem_of_nil.
Qed.

Lemma contains_spec {V : Type} (d : gmap string V) s :
  contains d s = true <-> is_Some (d !! s).
Proof. unfold contains. apply bool_decide_eq_true. Qed.

Lemma get_persona_config_known self s c :
  personas self !! s = Some c -> get_persona_config self s = inr c.
Proof.
  intros H. unfold get_persona_config, contains, subscript.
  rewrite bool_decide_eq_true_2 by (rewrite H; eauto). simpl. now rewrite H.
Qed.

Lemma get_persona_config_unknown self s :
  personas self !! s = None ->
  get_persona_config self s = subscript (personas self) "calm".
Proof.
  intros H. unfold get_persona_config, contains.
  rewrite bool_decide_eq_false_2; [reflexivity |].
  rewrite H. intros [? ?]; discriminate.
Qed.

Lemma get_persona_config_calm :
  get_persona_config personality_system "calm" = inr calm_config.
Proof. apply get_persona_config_known. reflexivity. Qed.

Lemma get_persona_config_total s :
  exists c, get_persona_config personality_system s = inr c /\ c ∈ persona_configs.
Proof.
  destruct (personas personality_system !! s) as [c|] eqn:H.
  - exists c. split; [now apply get_persona_config_known |].
    apply lookup_known in H. unfold persona_configs.
    destruct H as [[_ ->]|[[_ ->]|[[_ ->]|[_ ->]]]]; set_solver.
  - exists calm_config. split; [| unfold persona_configs; set_solver].
    now rewrite get_persona_config_unknown.
Qed.

End Registry.

Lemma persona_configs_populated (c : PersonaConfig) :
  c ∈ persona_configs -> all_fields_populated c = true.
Proof.
  unfold persona_configs. rewrite !elem_of_cons, elem_of_nil.
  intros [->|[->|[->|[->|[]]]]]; vm_compute; reflexivity.
Qed.

Lemma lookup_known_in (s : string) (c : PersonaConfig) :
  personas personality_system !! s = Some c -> c ∈ persona_configs.
Proof.
  intros H. apply lookup_known in H. unfold persona_configs.
  destruct H as [[_ ->]|[[_ ->]|[[_ ->]|[_ ->]]]]; set_solver.
Qed.

Lemma lookup_known_name (s : string) (c : PersonaConfig) :
  personas personality_system !! s = Some c ->
  s = (if String.eqb (name c) "Zen Coach" then "calm"
       else if String.eqb (name c) "Hype Coach" then "motivational"
       else if String.eqb (name c) "Supportive Coach" then "gentle"
       else "concise").
Proof.
  intros H. apply lookup_known in H.
  destruct H as [[-> ->]|[[-> ->]|[[-> ->]|[-> ->]]]]; reflexivity.
Qed.

(** C1: a persona identifier that is not a key of the registry (the empty
    string and malformed input included) resolves, without raising, to
    the configuration that resolving ["calm"] returns. *)
Theorem get_persona_config_fallback (persona_name : string) :
  personas personality_system !! persona_name = None ->
  get_persona_config personality_system persona_name = inr calm_config
  /\ get_persona_config personality_system persona_name
     = get_persona_config personality_system "calm".
Proof.
  intros H. rewrite get_persona_config_calm.
  rewrite (get_persona_config_unknown _ _ H). split; reflexivity.
Qed.

Lemma get_persona_config_fallback_witness :
  get_persona_config personality_system EmptyString = inr calm_config
  /\ get_persona_config personality_system "unknown_xyz"
     = get_persona_config personality_system "calm".
Proof.
  split.
  - apply (get_persona_config_fallback EmptyString). reflexivity.
  - apply (get_persona_config_fallback "unknown_xyz"). reflexivity.
Defined.

(** C2, as the specification states it, fails: [PersonaConfig] has no
    [id] field, and no text field of the configuration that ["calm"]
    resolves to holds the identifier (its [name] is the display name). *)
Lemma persona_config_has_no_id_field :
  get_persona_config personality_system "calm" = inr calm_config
  /\ name calm_config = "Zen Coach"
  /\ "calm" ∉ str_fields calm_config.
Proof.
  split; [apply get_persona_config_calm |]. split; [reflexivity |].
  apply (bool_decide_unpack _). vm_compute. exact I.
Qed.

(** C2, amended: for every identifier [P] of the registry, resolving [P]
    returns the configuration registered under the key [P], every field
    of that configuration is non-empty, and no other key holds it: the
    identifier is the dictionary key, not a field. *)
Theorem known_persona_config (P : string) (c : PersonaConfig) :
  personas personality_system !! P = Some c ->
  get_persona_config personality_system P = inr c
  /\ all_fields_populated c = true
  /\ (forall Q, personas personality_system !! Q = Some c -> Q = P).
Proof.
  intros H. split; [now apply get_persona_config_known |].
  split; [eapply persona_configs_populated, lookup_known_in, H |].
  intros Q HQ. rewrite (lookup_known_name _ _ H), (lookup_known_name _ _ HQ).
  reflexivity.
Qed.

Lemma known_persona_config_witness :
  get_persona_config personality_system "motivational" = inr motivational_config
  /\ all_fields_populated motivational_config = true
  /\ (forall Q, personas personality_system !! Q = Some motivational_config ->
                Q = "motivational").
Proof.
  apply (known_persona_config "motivational" motivational_config). reflexivity.
Defined.

(** C7: for every persona identifier, known or not, the prompt fragment
    is the [system_prompt_addon] of the configuration that resolving the
    same identifier returns. *)
Theorem get_system_prompt_addon_is_projection (p : string) :
  exists c,
    get_persona_config personality_system p = inr c
    /\ get_system_prompt_addon personality_system p = inr (system_prompt_addon c).
Proof.
  destruct (get_persona_config_total p) as (c & Hc & _).
  exists c. split; [exact Hc |].
  unfold get_system_prompt_addon. now rewrite Hc.
Qed.

(** C8: initialisation is deterministic and idempotent: any two runs of
    [_initialize_personas] build the same mapping with the same field
    values, and running [__init__] again leaves the object as it was. *)
Theorem initialize_personas_idempotent (self1 self2 : PersonalitySystem) :
  _initialize_personas self1 = _initialize_personas self2
  /\ __init__ self1 = __init__ self2
  /\ __init__ (__init__ self1) = __init__ self1
  /\ map_to_list (personas (__init__ self1))
     ≡ₚ zip persona_ids persona_configs.
Proof.
  repeat split.
  change (personas (__init__ self1)) with
    (list_to_map (M := gmap string PersonaConfig) (zip persona_ids persona_configs)).
  apply map_to_list_to_map. vm_compute.
  repeat constructor; rewrite ?elem_of_cons, ?elem_of_nil; intuition discriminate.
Qed.

(** C9: the keys of the registry are exactly ["calm"], ["motivational"],
    ["gentle"] and ["concise"]; an identifier outside them resolves to the
    default, and each operation returns the configuration, the prompt
    fragment or the theme of one of these four, never a fifth. *)
Theorem registry_is_closed :
  dom (personas personality_system) = list_to_set persona_ids
  /\ length persona_configs = 4
  /\ forall s : string,
       (s ∉ persona_ids -> get_persona_config personality_system s = inr calm_config)
       /\ exists c, c ∈ persona_configs
            /\ get_persona_config personality_system s = inr c
            /\ get_system_prompt_addon personality_system s = inr (system_prompt_addon c)
            /\ get_ui_config personality_system s = inr (ui_config_of c).
Proof.
  split; [| split; [reflexivity |]].
  - apply set_eq. intros s. rewrite elem_of_dom, elem_of_list_to_set.
    destruct (decide (s ∈ persona_ids)) as [Hin|Hout].
    + split; [intros _; exact Hin | intros _].
      destruct (personas personality_system !! s) eqn:E; [eauto |].
      apply lookup_unknown in E. contradiction.
    + split; [| intros Hin; contradiction].
      apply lookup_unknown in Hout. rewrite Hout. intros [? ?]; discriminate.
  - intros s. split.
    + intros Hout. apply lookup_unknown in Hout.
      rewrite (get_persona_config_unknown _ _ Hout). reflexivity.
    + destruct (get_persona_config_total s) as (c & Hc & Hin).
      exists c. unfold get_system_prompt_addon, get_ui_config. rewrite Hc.
      repeat split; assumption.
Qed.

(** [s[:n]] counts code points, not bytes: U+00E9 takes two bytes. *)
Example str_prefix_code_points :
  str_prefix 2 "héllo" = "hé" /\ String.length (str_prefix 2 "héllo") = 3
  /\ str_prefix 50 "short" = "short" /\ str_prefix 0 "abc" = EmptyString.
Proof. repeat split. Qed.

Example get_ui_config_motivational :
  get_ui_config personality_system "motivational"
  = inr (<[ "accent_color" := "#FF4500" ]>
           (<[ "avatar_url" := "/avatars/hype-coach.png" ]>
              (<[ "name" := "Hype Coach" ]> ∅))).
Proof. vm_compute. reflexivity. Qed.

(** ** The request gateway *)

Section GatewayFacts.

Context {St : Type}.
Variable orchestrator : AgentOrchestrator St.
Variable render : string -> list FieldError -> string.

Implicit Types (w : World St) (t : list Event) (e : Exception).

Lemma orchestrator_calls_app t t' :
  orchestrator_calls (t ++ t') = orchestrator_calls t ++ orchestrator_calls t'.
Proof. unfold orchestrator_calls. apply filter_app. Qed.

Lemma mapM_as_dict (l : list pyval) (ds : list (gmap string pyval)) :
  mapM as_dict l = Some ds -> l = VDict <$> ds.
Proof.
  intros H. apply mapM_Some_1 in H.
  induction H as [|v d l ds Hv _ IH]; [reflexivity |].
  destruct v; try discriminate Hv. injection Hv as ->.
  simpl. now rewrite IH.
Qed.

Lemma check_inr {A : Type} (f : pyval -> option A) (field : string) (v : pyval) (a : A) :
  check f field v = inr a -> f v = Some a.
Proof. unfold check. destruct (f v); intros H; now inversion H. Qed.

Lemma as_str_Some (v : pyval) (s : string) : as_str v = Some s -> v = VStr s.
Proof. destruct v; intros H; try discriminate H. now injection H as ->. Qed.

Lemma as_optional_Some {A : Type} (f : pyval -> option A) (g : A -> pyval)
    (v : pyval) (o : option A) :
  (forall u a, f u = Some a -> u = g a) ->
  as_optional f v = Some o -> v = py_optional g o.
Proof.
  intros Hf. unfold as_optional.
  destruct v; try (intros H; injection H as <-; reflexivity);
    (destruct (f _) eqn:E; intros H; [| discriminate H]);
    injection H as <-; simpl; now apply Hf.
Qed.

Lemma as_dict_Some (v : pyval) (d : gmap string pyval) :
  as_dict v = Some d -> v = VDict d.
Proof. destruct v; intros H; try discriminate H. now injection H as ->. Qed.

Lemma as_list_of_dict_Some (v : pyval) (ds : list (gmap string pyval)) :
  as_list_of as_dict v = Some ds -> v = py_dicts ds.
Proof.
  destruct v; intros H; try discriminate H.
  simpl in H. apply mapM_as_dict in H. now subst.
Qed.

(** What a constructed [ChatResponse] says about the arguments given. *)
Lemma ChatResponse_validate_inr (r a c i acts refs : pyval) (resp : ChatResponse) :
  ChatResponse_validate r a c i acts refs = inr resp ->
  r = VStr (response resp) /\ a = VStr (agent_id resp)
  /\ c = VStr (resp_conversation_id resp) /\ i = VStr (intent resp)
  /\ acts = py_optional py_dicts (actions resp)
  /\ refs = py_optional VDict (references resp).
Proof.
  unfold ChatResponse_validate. cbv zeta.
  destruct (check as_str "response" r) as [?|r'] eqn:Er; [discriminate |].
  destruct (check as_str "agent_id" a) as [?|a'] eqn:Ea; [discriminate |].
  destruct (check as_str "conversation_id" c) as [?|c'] eqn:Ec; [discriminate |].
  destruct (check as_str "intent" i) as [?|i'] eqn:Ei; [discriminate |].
  destruct (check _ "actions" acts) as [?|acts'] eqn:Eacts; [discriminate |].
  destruct (check _ "references" refs) as [?|refs'] eqn:Erefs; [discriminate |].
  intros H. injection H as <-. simpl.
  apply check_inr in Er, Ea, Ec, Ei, Eacts, Erefs.
  repeat split; try now apply as_str_Some.
  - eapply as_optional_Some; [| exact Eacts]. apply as_list_of_dict_Some.
  - eapply as_optional_Some; [| exact Erefs]. apply as_dict_Some.
Qed.

Lemma subscript_inr {V : Type} (d : gmap string V) (k : string) (v : V) :
  subscript d k = inr v -> d !! k = Some v.
Proof. unfold subscript. destruct (d !! k); intros H; now inversion H. Qed.

Ltac unfold_handler :=
  unfold chat, calculate_readiness, generate_plan, try_except, bind, ret, lift,
    logger_info, log_error_and_raise, await_process_message,
    await_calculate_readiness, await_generate_training_plan, construct, emit;
  cbn [orch trace].

Ltac unfold_handler_in H :=
  unfold chat, calculate_readiness, generate_plan, try_except, bind, ret, lift,
    logger_info, log_error_and_raise, await_process_message,
    await_calculate_readiness, await_generate_training_plan, construct, emit in H;
  cbn [orch trace] in H.

Ltac run_step :=
  cbn -[orchestrator_calls chat_call String.append str_prefix subscript
        ChatResponse_validate];
  unfold ret, lift;
  cbn -[orchestrator_calls chat_call String.append str_prefix subscript
        ChatResponse_validate].

Lemma chat_orchestrator_raises (req : ChatRequest) w (cfg : PersonaConfig) e (s : St) :
  get_persona_config personality_system (persona req) = inr cfg ->
  process_message orchestrator (user_id req) (message req) (conversation_id req)
    cfg (context req) (orch w) = (inl e, s) ->
  chat orchestrator render req w =
    (inl {| status_code := 500; detail := exc_str e |},
     {| orch := s;
        trace := trace w ++ [ chat_log_request req; chat_call req cfg;
                              LogError ("Error processing chat request: " +:+ exc_str e) ] |}).
Proof.
  intros Hcfg Hpm. unfold_handler. rewrite Hcfg. cbn [orch trace]. rewrite Hpm.
  cbn [orch trace]. rewrite <- !app_assoc. reflexivity.
Qed.

Lemma calculate_readiness_orchestrator_raises (req : ReadinessRequest) w e (s : St) :
  calculate_readiness_of orchestrator (rr_user_id req) (date req) (orch w) = (inl e, s) ->
  calculate_readiness orchestrator render req w =
    (inl {| status_code := 500; detail := exc_str e |},
     {| orch := s;
        trace := trace w ++ [ LogInfo ("Calculating readiness for user " +:+ rr_user_id req);
                              CallCalculateReadiness (rr_user_id req) (date req);
                              LogError ("Error calculating readiness: " +:+ exc_str e) ] |}).
Proof.
  intros Hcr. unfold_handler. rewrite Hcr. cbn [orch trace].
  rewrite <- !app_assoc. reflexivity.
Qed.

Lemma generate_plan_orchestrator_raises (req : PlanGenerationRequest) w e (s : St) :
  generate_training_plan orchestrator (pg_user_id req) (preferences req)
    (onboarding_data req) (orch w) = (inl e, s) ->
  generate_plan orchestrator req w =
    (inl {| status_code := 500; detail := exc_str e |},
     {| orch := s;
        trace := trace w ++ [ LogInfo ("Generating plan for user " +:+ pg_user_id req);
                              CallGenerateTrainingPlan (pg_user_id req) (preferences req)
                                (onboarding_data req);
                              LogError ("Error generating plan: " +:+ exc_str e) ] |}).
Proof.
  intros Hgp. unfold_handler. rewrite Hgp. cbn [orch trace].
  rewrite <- !app_assoc. reflexivity.
Qed.

(** C4: when the delegated orchestrator call raises, the handler returns
    no response: it raises one [HTTPException] with status 500 whose
    detail is the text of the exception raised, after exactly one call
    on the orchestrator, whose state is the one that call left. *)
Theorem orchestrator_failure_is_terminal w e (s : St) :
  (forall (req : ChatRequest) (cfg : PersonaConfig),
      get_persona_config personality_system (persona req) = inr cfg ->
      process_message orchestrator (user_id req) (message req) (conversation_id req)
        cfg (context req) (orch w) = (inl e, s) ->
      exists w',
        chat orchestrator render req w
          = (inl {| status_code := 500; detail := exc_str e |}, w')
        /\ orch w' = s
        /\ orchestrator_calls (trace w')
           = orchestrator_calls (trace w) ++ [chat_call req cfg])
  /\ (forall req : ReadinessRequest,
        calculate_readiness_of orchestrator (rr_user_id req) (date req) (orch w)
          = (inl e, s) ->
        exists w',
          calculate_readiness orchestrator render req w
            = (inl {| status_code := 500; detail := exc_str e |}, w')
          /\ orch w' = s
          /\ orchestrator_calls (trace w')
             = orchestrator_calls (trace w)
                 ++ [CallCalculateReadiness (rr_user_id req) (date req)])
  /\ (forall req : PlanGenerationRequest,
        generate_training_plan orchestrator (pg_user_id req) (preferences req)
          (onboarding_data req) (orch w) = (inl e, s) ->
        exists w',
          generate_plan orchestrator req w
            = (inl {| status_code := 500; detail := exc_str e |}, w')
          /\ orch w' = s
          /\ orchestrator_calls (trace w')
             = orchestrator_calls (trace w)
                 ++ [CallGenerateTrainingPlan (pg_user_id req) (preferences req)
                       (onboarding_data req)])
  /\ is_server_error 500 = true.
Proof.
  split; [| split; [| split; [| reflexivity]]].
  - intros req cfg Hcfg Hpm. eexists. split.
    + apply (chat_orchestrator_raises _ _ _ _ _ Hcfg Hpm).
    + split; [reflexivity |]. cbn [trace].
      rewrite orchestrator_calls_app. reflexivity.
  - intros req Hcr. eexists. split.
    + apply (calculate_readiness_orchestrator_raises _ _ _ _ Hcr).
    + split; [reflexivity |]. cbn [trace].
      rewrite orchestrator_calls_app. reflexivity.
  - intros req Hgp. eexists. split.
    + apply (generate_plan_orchestrator_raises _ _ _ _ Hgp).
    + split; [reflexivity |]. cbn [trace].
      rewrite orchestrator_calls_app. reflexivity.
Qed.

(** C5: a chat request that succeeds returns the fields [response],
    [agent_id], [conversation_id] and [intent] of the orchestrator's
    result and what [get] gives for [actions] and [references], each with
    the value the result holds. *)
Theorem chat_response_passes_through (req : ChatRequest) w (resp : ChatResponse) w' :
  chat orchestrator render req w = (inr resp, w') ->
  exists (cfg : PersonaConfig) (result : gmap string pyval) (s : St),
    get_persona_config personality_system (persona req) = inr cfg
    /\ process_message orchestrator (user_id req) (message req) (conversation_id req)
         cfg (context req) (orch w) = (inr result, s)
    /\ result !! "response" = Some (VStr (response resp))
    /\ result !! "agent_id" = Some (VStr (agent_id resp))
    /\ result !! "conversation_id" = Some (VStr (resp_conversation_id resp))
    /\ result !! "intent" = Some (VStr (intent resp))
    /\ dict_get result "actions" = py_optional py_dicts (actions resp)
    /\ dict_get result "references" = py_optional VDict (references resp).
Proof.
  intros H.
  destruct (get_persona_config_total (persona req)) as (cfg & Hcfg & _).
  unfold_handler_in H. rewrite Hcfg in H. cbn [orch trace] in H.
  destruct (process_message _ _ _ _ _ _ _) as [[e|result] s] eqn:Hpm;
    cbn [orch trace] in H; [discriminate H |].
  destruct (subscript result "response") as [?|r] eqn:Er; [discriminate H |].
  destruct (subscript result "agent_id") as [?|a] eqn:Ea; [discriminate H |].
  destruct (subscript result "conversation_id") as [?|c] eqn:Ec; [discriminate H |].
  destruct (subscript result "intent") as [?|i] eqn:Ei; [discriminate H |].
  destruct (ChatResponse_validate _ _ _ _ _ _) as [?|resp'] eqn:Ev; [discriminate H |].
  injection H as Hresp _. subst resp'.
  apply ChatResponse_validate_inr in Ev.
  destruct Ev as (-> & -> & -> & -> & Hacts & Hrefs).
  apply subscript_inr in Er, Ea, Ec, Ei.
  exists cfg, result, s. repeat split; assumption.
Qed.

Lemma orchestrator_calls_snoc_log t (l : Event) :
  is_orchestrator_call l = false ->
  orchestrator_calls (t ++ [l]) = orchestrator_calls t.
Proof.
  intros Hl. rewrite orchestrator_calls_app. unfold orchestrator_calls at 2.
  rewrite filter_cons_False by (rewrite Hl; discriminate).
  rewrite filter_nil. apply app_nil_r.
Qed.

Lemma orchestrator_calls_snoc_call t (c : Event) :
  is_orchestrator_call c = true ->
  orchestrator_calls (t ++ [c]) = orchestrator_calls t ++ [c].
Proof.
  intros Hc. rewrite orchestrator_calls_app. unfold orchestrator_calls at 2.
  rewrite filter_cons_True by exact Hc. now rewrite filter_nil.
Qed.

(** Whatever the orchestrator answers, [chat] calls it once. *)
Lemma chat_calls_orchestrator_once (req : ChatRequest) w (cfg : PersonaConfig) :
  get_persona_config personality_system (persona req) = inr cfg ->
  orchestrator_calls (trace (chat orchestrator render req w).2)
  = orchestrator_calls (trace w) ++ [chat_call req cfg].
Proof.
  intros Hcfg. unfold_handler. rewrite Hcfg. cbn [orch trace].
  assert (Hcall : forall t l,
    is_orchestrator_call l = false ->
    orchestrator_calls ((t ++ [l]) ++ [chat_call req cfg])
    = orchestrator_calls t ++ [chat_call req cfg]).
  { intros t l Hl. rewrite orchestrator_calls_snoc_call by reflexivity.
    now rewrite orchestrator_calls_snoc_log. }
  destruct (process_message _ _ _ _ _ _ _) as [[e|result] s]; run_step.
  { rewrite orchestrator_calls_snoc_log by reflexivity. now apply Hcall. }
  repeat (destruct (subscript result _) as [?|?]; run_step;
    [rewrite !orchestrator_calls_snoc_log by reflexivity; now apply Hcall |]).
  destruct (ChatResponse_validate _ _ _ _ _ _) as [?|?]; run_step;
    rewrite !orchestrator_calls_snoc_log by reflexivity; now apply Hcall.
Qed.

Lemma ChatRequest_validate_missing (body : gmap string pyval) :
  body !! "message" = None \/ body !! "user_id" = None ->
  exists errors,
    ChatRequest_validate body = inl errors
    /\ (body !! "message" = None -> {| loc := "message"; kind := Missing |} ∈ errors)
    /\ (body !! "user_id" = None -> {| loc := "user_id"; kind := Missing |} ∈ errors).
Proof.
  intros Hm. unfold ChatRequest_validate. cbv zeta.
  assert (Hreq : forall field,
    body !! field = None ->
    required as_str body field = inl [ {| loc := field; kind := Missing |} ]).
  { intros field Hf. unfold required. now rewrite Hf. }
  destruct (body !! "message") as [vm|] eqn:Em;
    destruct (body !! "user_id") as [vu|] eqn:Eu.
  - destruct Hm as [Hm|Hm]; discriminate Hm.
  - rewrite (Hreq "user_id" Eu).
    destruct (required as_str body "message") as [em|m];
      (eexists; split; [reflexivity |]; split; intros Hn; [discriminate Hn |]);
      cbn [errors_of]; rewrite !elem_of_app, list_elem_of_singleton; tauto.
  - rewrite (Hreq "message" Em).
    eexists; split; [reflexivity |]; split; intros Hn; [| discriminate Hn].
    cbn [errors_of]. rewrite !elem_of_app, list_elem_of_singleton. tauto.
  - rewrite (Hreq "message" Em), (Hreq "user_id" Eu).
    eexists; split; [reflexivity |]; split; intros Hn;
      cbn [errors_of]; rewrite !elem_of_app, !list_elem_of_singleton; tauto.
Qed.

Lemma ChatRequest_validate_inr (body : gmap string pyval) (req : ChatRequest) :
  ChatRequest_validate body = inr req ->
  body !! "message" = Some (VStr (message req))
  /\ body !! "user_id" = Some (VStr (user_id req)).
Proof.
  unfold ChatRequest_validate. cbv zeta.
  destruct (required as_str body "message") as [?|m] eqn:Em; [discriminate |].
  destruct (required as_str body "user_id") as [?|u] eqn:Eu; [discriminate |].
  destruct (defaulted _ _ body "conversation_id") as [?|c]; [discriminate |].
  destruct (defaulted _ _ body "persona") as [?|p]; [discriminate |].
  destruct (defaulted _ _ body "context") as [?|x]; [discriminate |].
  intros H. injection H as <-. simpl.
  unfold required in Em, Eu.
  destruct (body !! "message") as [vm|]; [| discriminate Em].
  destruct (body !! "user_id") as [vu|]; [| discriminate Eu].
  apply check_inr, as_str_Some in Em, Eu. now subst.
Qed.

(** C3, amended: a chat request whose body lacks [message] or [user_id]
    is answered 422, with the missing field named, before the handler
    runs, so the world is untouched and the orchestrator is not called.
    A body in which both are strings, empty or not, and which validates
    reaches the handler, which calls the orchestrator once with them. *)
Theorem chat_rejects_missing_fields (body : gmap string pyval) w :
  (body !! "message" = None \/ body !! "user_id" = None ->
   exists errors,
     post_chat orchestrator render body w = (Unprocessable errors, w)
     /\ is_client_error (status (Unprocessable (A := ChatResponse) errors)) = true
     /\ (body !! "message" = None -> {| loc := "message"; kind := Missing |} ∈ errors)
     /\ (body !! "user_id" = None -> {| loc := "user_id"; kind := Missing |} ∈ errors))
  /\ (forall req : ChatRequest,
        ChatRequest_validate body = inr req ->
        body !! "message" = Some (VStr (message req))
        /\ body !! "user_id" = Some (VStr (user_id req))
        /\ exists cfg : PersonaConfig,
             orchestrator_calls (trace (post_chat orchestrator render body w).2)
             = orchestrator_calls (trace w) ++ [chat_call req cfg]).
Proof.
  split.
  - intros Hm. destruct (ChatRequest_validate_missing body Hm) as (errors & Hv & Hin).
    exists errors. split; [| split; [reflexivity | exact Hin]].
    unfold post_chat, route. now rewrite Hv.
  - intros req Hv. destruct (ChatRequest_validate_inr body req Hv) as [Hm Hu].
    split; [exact Hm |]. split; [exact Hu |].
    destruct (get_persona_config_total (persona req)) as (cfg & Hcfg & _).
    exists cfg. unfold post_chat, route. rewrite Hv.
    rewrite <- (chat_calls_orchestrator_once req w cfg Hcfg).
    now destruct (chat orchestrator render req w) as [[?|?] ?].
Qed.

(** C6: each voice operation, whatever it is given, returns its fixed
    placeholder and raises nothing; it leaves the world as it found it. *)
Theorem voice_operations_are_placeholders (audio_data : list Byte.byte)
    (text persona : string) w :
  transcribe_voice audio_data w
    = (inr {[ "transcription" := VStr "Voice transcription not yet implemented" ]}, w)
  /\ synthesize_voice text persona w
     = (inr {[ "audio_url" := VStr "Voice synthesis not yet implemented" ]}, w).
Proof. split; reflexivity. Qed.

(** C10: the result of voice synthesis does not depend on [text] or on
    [persona], nor on the world it runs in: any two invocations return
    the same payload, the dictionary with the one key [audio_url]. *)
Theorem synthesize_voice_ignores_inputs (text1 persona1 text2 persona2 : string)
    (w1 w2 : World St) :
  (synthesize_voice text1 persona1 w1).1 = (synthesize_voice text2 persona2 w2).1
  /\ (synthesize_voice text1 persona1 w1).1
     = inr {[ "audio_url" := VStr "Voice synthesis not yet implemented" ]}
  /\ (synthesize_voice text1 persona1 w1).2 = w1.
Proof. repeat split. Qed.

End GatewayFacts.

(** ** The gateway at concrete inputs *)

Lemma orchestrator_failure_is_terminal_witness :
  exists w' : World nat,
    chat failing_orchestrator sample_render sample_request fresh_world
      = (inl {| status_code := 500; detail := "upstream unavailable" |}, w')
    /\ orch w' = 1
    /\ orchestrator_calls (trace w') = [chat_call sample_request motivational_config].
Proof.
  apply (proj1 (orchestrator_failure_is_terminal failing_orchestrator sample_render
                  fresh_world upstream_error 1) sample_request motivational_config);
    reflexivity.
Defined.

Lemma chat_response_passes_through_witness :
  exists (cfg : PersonaConfig) (result : gmap string pyval) (s : nat),
    get_persona_config personality_system "motivational" = inr cfg
    /\ process_message answering_orchestrator "u1" "How hard should I train today?"
         None cfg None 0 = (inr result, s)
    /\ result !! "response" = Some (VStr "Done.")
    /\ result !! "agent_id" = Some (VStr "coach")
    /\ result !! "conversation_id" = Some (VStr "c-1")
    /\ result !! "intent" = Some (VStr "chat")
    /\ dict_get result "actions" = VList [VDict {[ "type" := VStr "log" ]}]
    /\ dict_get result "references" = VNone.
Proof.
  apply (chat_response_passes_through answering_orchestrator sample_render
           sample_request fresh_world sample_response sample_world_after).
  vm_compute. reflexivity.
Defined.

(** C3, as the specification states it, fails: a request whose [message]
    is the empty string is not rejected; it is answered 200 after the
    orchestrator has processed the empty message. *)
Lemma empty_message_reaches_orchestrator :
  empty_message_body !! "message" = Some (VStr EmptyString)
  /\ post_chat answering_orchestrator sample_render empty_message_body fresh_world
     = (Returned sample_response, empty_message_world_after)
  /\ orchestrator_calls (trace empty_message_world_after)
     = [CallProcessMessage "u1" EmptyString None calm_config None]
  /\ ~ (exists (r : Reply ChatResponse) (w' : World nat),
          post_chat answering_orchestrator sample_render empty_message_body fresh_world
            = (r, w')
          /\ is_client_error (status r) = true
          /\ orchestrator_calls (trace w') = orchestrator_calls (trace fresh_world)).
Proof.
  assert (Hrun : post_chat answering_orchestrator sample_render empty_message_body
                   fresh_world = (Returned sample_response, empty_message_world_after))
    by (vm_compute; reflexivity).
  split; [reflexivity |]. split; [exact Hrun |]. split; [reflexivity |].
  intros (r & w' & Hr & Hc & _). rewrite Hrun in Hr.
  injection Hr as <- <-. discriminate Hc.
Qed.

Lemma chat_rejects_missing_fields_witness :
  exists errors,
    post_chat answering_orchestrator sample_render missing_message_body fresh_world
      = (Unprocessable errors, fresh_world)
    /\ is_client_error (status (Unprocessable (A := ChatResponse) errors)) = true
    /\ (missing_message_body !! "message" = None ->
        {| loc := "message"; kind := Missing |} ∈ errors)
    /\ (missing_message_body !! "user_id" = None ->
        {| loc := "user_id"; kind := Missing |} ∈ errors).
Proof.
  apply (proj1 (chat_rejects_missing_fields answering_orchestrator sample_render
                  missing_message_body fresh_world)).
  left. reflexivity.
Defined.

(** ** Further properties of the gateway *)

Section Handlers.

Context {St : Type}.
Variable orchestrator : AgentOrchestrator St.
Variable render : string -> list FieldError -> string.

Implicit Types (w : World St) (t : list Event) (e : Exception).

Ltac unfold_handler :=
  unfold chat, calculate_readiness, generate_plan, try_except, bind, ret, lift,
    logger_info, log_error_and_raise, await_process_message,
    await_calculate_readiness, await_generate_training_plan, construct, emit;
  cbn [orch trace].

Ltac run_pure :=
  cbn -[String.append str_prefix subscript ChatResponse_validate
        ReadinessResponse_validate];
  unfold ret, lift;
  cbn -[String.append str_prefix subscript ChatResponse_validate
        ReadinessResponse_validate].

(** One run of [chat], by what the orchestrator answers. *)
Lemma chat_run (req : ChatRequest) w (cfg : PersonaConfig) :
  get_persona_config personality_system (persona req) = inr cfg ->
  chat orchestrator render req w =
    match process_message orchestrator (user_id req) (message req)
            (conversation_id req) cfg (context req) (orch w) with
    | (inl e, s) =>
        (inl (internal_error e),
         {| orch := s;
            trace := trace w ++ [chat_log_request req; chat_call req cfg;
                                 chat_log_error e] |})
    | (inr result, s) =>
        match chat_response_of render result with
        | inr resp =>
            (inr resp,
             {| orch := s;
                trace := trace w ++ [chat_log_request req; chat_call req cfg;
                                     chat_log_success req] |})
        | inl e =>
            (inl (internal_error e),
             {| orch := s;
                trace := trace w ++ [chat_log_request req; chat_call req cfg;
                                     chat_log_success req; chat_log_error e] |})
        end
    end.
Proof.
  intros Hcfg. unfold_handler. rewrite Hcfg. cbn [orch trace].
  unfold chat_response_of, internal_error, chat_log_error, chat_log_success,
    chat_log_request, chat_call.
  destruct (process_message _ _ _ _ _ _ _) as [[e|result] s]; run_pure.
  { rewrite <- !app_assoc. reflexivity. }
  repeat (destruct (subscript result _) as [?|?]; run_pure;
    [rewrite <- !app_assoc; reflexivity |]).
  destruct (ChatResponse_validate _ _ _ _ _ _) as [?|?]; run_pure;
    rewrite <- !app_assoc; reflexivity.
Qed.

(** One run of [calculate_readiness]. *)
Lemma calculate_readiness_run (req : ReadinessRequest) w :
  calculate_readiness orchestrator render req w =
    match calculate_readiness_of orchestrator (rr_user_id req) (date req) (orch w) with
    | (inl e, s) =>
        (inl (internal_error e),
         {| orch := s;
            trace := trace w ++ [readiness_log_request req; readiness_call req;
                                 readiness_log_error e] |})
    | (inr result, s) =>
        match readiness_response_of render result with
        | inr resp =>
            (inr resp,
             {| orch := s;
                trace := trace w ++ [readiness_log_request req; readiness_call req] |})
        | inl e =>
            (inl (internal_error e),
             {| orch := s;
                trace := trace w ++ [readiness_log_request req; readiness_call req;
                                     readiness_log_error e] |})
        end
    end.
Proof.
  unfold_handler.
  unfold readiness_response_of, internal_error, readiness_log_error,
    readiness_log_request, readiness_call.
  destruct (calculate_readiness_of _ _ _ _) as [[e|result] s]; run_pure.
  { rewrite <- !app_assoc. reflexivity. }
  repeat (destruct (subscript result _) as [?|?]; run_pure;
    [rewrite <- !app_assoc; reflexivity |]).
  destruct (ReadinessResponse_validate _ _ _ _ _) as [?|?]; run_pure;
    rewrite <- ?app_assoc; reflexivity.
Qed.

(** One run of [generate_plan]. *)
Lemma generate_plan_run (req : PlanGenerationRequest) w :
  generate_plan orchestrator req w =
    match generate_training_plan orchestrator (pg_user_id req) (preferences req)
            (onboarding_data req) (orch w) with
    | (inl e, s) =>
        (inl (internal_error e),
         {| orch := s;
            trace := trace w ++ [plan_log_request req; plan_call req;
                                 plan_log_error e] |})
    | (inr result, s) =>
        match plan_response_of result with
        | inr d =>
            (inr d,
             {| orch := s; trace := trace w ++ [plan_log_request req; plan_call req] |})
        | inl e =>
            (inl (internal_error e),
             {| orch := s;
                trace := trace w ++ [plan_log_request req; plan_call req;
                                     plan_log_error e] |})
        end
    end.
Proof.
  unfold_handler.
  unfold plan_response_of, internal_error, plan_log_error, plan_log_request, plan_call.
  destruct (generate_training_plan _ _ _ _ _) as [[e|result] s]; run_pure.
  { rewrite <- !app_assoc. reflexivity. }
  repeat (destruct (subscript result _) as [?|?]; run_pure;
    [rewrite <- !app_assoc; reflexivity |]).
  rewrite <- ?app_assoc; reflexivity.
Qed.

Lemma subscript_contains (d : gmap string pyval) (k : string) :
  subscript d k = (if contains d k then inr (dict_get d k) else inl (KeyError k)).
Proof.
  unfold subscript, contains, dict_get. destruct (d !! k) as [v|] eqn:E.
  - rewrite bool_decide_eq_true_2 by eauto. reflexivity.
  - rewrite bool_decide_eq_false_2; [reflexivity |]. intros [? ?]; discriminate.
Qed.

Lemma chat_response_of_missing (result : gmap string pyval) (k : string) :
  first_missing result ["response"; "agent_id"; "conversation_id"; "intent"] = Some k ->
  chat_response_of render result = inl (KeyError k).
Proof.
  unfold first_missing, chat_response_of. rewrite !subscript_contains. cbn [find].
  repeat (destruct (contains result _); cbn [negb];
    [| intros H; injection H as <-; reflexivity]).
  discriminate.
Qed.

Lemma mapM_as_dict_fmap (ds : list (gmap string pyval)) :
  mapM as_dict (VDict <$> ds) = Some ds.
Proof. induction ds as [|d ds IH]; [reflexivity |]. cbn. now rewrite IH. Qed.

Lemma ChatResponse_validate_well_typed (r a c i : string)
    (acts : option (list (gmap string pyval))) (refs : option (gmap string pyval)) :
  ChatResponse_validate (VStr r) (VStr a) (VStr c) (VStr i)
    (py_optional py_dicts acts) (py_optional VDict refs)
  = inr {| response := r; agent_id := a; resp_conversation_id := c; intent := i;
           actions := acts; references := refs |}.
Proof.
  unfold ChatResponse_validate, check. cbn [as_str].
  destruct acts as [l|], refs as [d|]; cbn [py_optional py_dicts as_optional as_list_of as_dict];
    rewrite ?mapM_as_dict_fmap; reflexivity.
Qed.


(** X1: every failure of [chat] is a 500 and is written to the log once, as
    the last record of the request; the detail sent to the client is the
    text logged after the prefix. *)
Theorem chat_failure_is_logged_once (req : ChatRequest) w (h : HTTPException) w' :
  chat orchestrator render req w = (inl h, w') ->
  status_code h = 500%Z
  /\ exists t,
       trace w' = trace w ++ t
                    ++ [LogError ("Error processing chat request: " +:+ detail h)]
       /\ forallb (fun ev => negb (is_log_error ev)) t = true.
Proof.
  destruct (get_persona_config_total (persona req)) as (cfg & Hcfg & _).
  rewrite (chat_run req w cfg Hcfg).
  destruct (process_message _ _ _ _ _ _ _) as [[e|result] s].
  - intros H. injection H as <- <-. split; [reflexivity |].
    exists [chat_log_request req; chat_call req cfg]. split; reflexivity.
  - destruct (chat_response_of render result) as [e|resp]; intros H;
      [| discriminate H].
    injection H as <- <-. split; [reflexivity |].
    exists [chat_log_request req; chat_call req cfg; chat_log_success req].
    split; reflexivity.
Qed.

(** X2: whatever the orchestrator answers, [chat] calls it exactly once, with
    the fields of the request and the resolved configuration (the calm
    one when the persona is not registered), and leaves the orchestrator
    in the state that call produced. *)
Theorem chat_calls_orchestrator_exactly_once (req : ChatRequest) w :
  exists (cfg : PersonaConfig) (r : Exception + gmap string pyval) (s : St),
    get_persona_config personality_system (persona req) = inr cfg
    /\ (persona req ∉ persona_ids -> cfg = calm_config)
    /\ process_message orchestrator (user_id req) (message req) (conversation_id req)
         cfg (context req) (orch w) = (r, s)
    /\ orch (chat orchestrator render req w).2 = s
    /\ orchestrator_calls (trace (chat orchestrator render req w).2)
       = orchestrator_calls (trace w) ++ [chat_call req cfg].
Proof.
  destruct (get_persona_config_total (persona req)) as (cfg & Hcfg & _).
  destruct (process_message orchestrator (user_id req) (message req)
              (conversation_id req) cfg (context req) (orch w)) as [r s] eqn:Hpm.
  exists cfg, r, s. split; [exact Hcfg |]. split.
  { intros Hout. apply lookup_unknown in Hout.
    rewrite (get_persona_config_unknown _ _ Hout) in Hcfg.
    now injection Hcfg as <-. }
  split; [exact Hpm |].
  split; [| now apply chat_calls_orchestrator_once].
  rewrite (chat_run req w cfg Hcfg), Hpm.
  destruct r as [e|result]; [reflexivity |].
  now destruct (chat_response_of render result).
Qed.

(** X3: when the orchestrator's result lacks one of the keys [response],
    [agent_id], [conversation_id] and [intent], [chat] fails with the
    [KeyError] of the first one lacking: a 500 whose detail is that key
    between single quotes. The record of success is already in the log
    when the error is logged. *)
Theorem chat_reports_first_missing_key (req : ChatRequest) w (cfg : PersonaConfig)
    (result : gmap string pyval) (s : St) (k : string) :
  get_persona_config personality_system (persona req) = inr cfg ->
  process_message orchestrator (user_id req) (message req) (conversation_id req)
    cfg (context req) (orch w) = (inr result, s) ->
  first_missing result ["response"; "agent_id"; "conversation_id"; "intent"] = Some k ->
  chat orchestrator render req w =
    (inl {| status_code := 500; detail := "'" +:+ k +:+ "'" |},
     {| orch := s;
        trace := trace w ++ [ chat_log_request req; chat_call req cfg;
                              chat_log_success req;
                              LogError ("Error processing chat request: '" +:+ k +:+ "'") ] |}).
Proof.
  intros Hcfg Hpm Hk. rewrite (chat_run req w cfg Hcfg), Hpm.
  rewrite (chat_response_of_missing result k Hk). reflexivity.
Qed.

(** X4: a result whose four required keys hold strings, whose [actions] is
    absent, [None] or a list of dictionaries and whose [references] is
    absent, [None] or a dictionary makes [chat] succeed with exactly
    these values, whatever other keys the result has. *)
Theorem chat_succeeds_on_well_formed_result (req : ChatRequest) w (cfg : PersonaConfig)
    (result : gmap string pyval) (s : St) (r a c i : string)
    (acts : option (list (gmap string pyval))) (refs : option (gmap string pyval)) :
  get_persona_config personality_system (persona req) = inr cfg ->
  process_message orchestrator (user_id req) (message req) (conversation_id req)
    cfg (context req) (orch w) = (inr result, s) ->
  result !! "response" = Some (VStr r) ->
  result !! "agent_id" = Some (VStr a) ->
  result !! "conversation_id" = Some (VStr c) ->
  result !! "intent" = Some (VStr i) ->
  dict_get result "actions" = py_optional py_dicts acts ->
  dict_get result "references" = py_optional VDict refs ->
  chat orchestrator render req w =
    (inr {| response := r; agent_id := a; resp_conversation_id := c; intent := i;
            actions := acts; references := refs |},
     {| orch := s;
        trace := trace w ++ [chat_log_request req; chat_call req cfg;
                             chat_log_success req] |}).
Proof.
  intros Hcfg Hpm Hr Ha Hc Hi Hacts Hrefs.
  rewrite (chat_run req w cfg Hcfg), Hpm.
  unfold chat_response_of, subscript. rewrite Hr, Ha, Hc, Hi, Hacts, Hrefs.
  now rewrite ChatResponse_validate_well_typed.
Qed.






(** X6: [generate_plan] checks no type: with a result from the orchestrator it
    succeeds exactly when the result has the keys [plan_id], [plan] and
    [message], and then returns these three entries and no other. *)
Theorem generate_plan_needs_three_keys (req : PlanGenerationRequest) w
    (result : gmap string pyval) (s : St) :
  generate_training_plan orchestrator (pg_user_id req) (preferences req)
    (onboarding_data req) (orch w) = (inr result, s) ->
  ((exists d, (generate_plan orchestrator req w).1 = inr d)
   <-> is_Some (result !! "plan_id") /\ is_Some (result !! "plan")
       /\ is_Some (result !! "message"))
  /\ (forall d, (generate_plan orchestrator req w).1 = inr d ->
        dom d = {[ "plan_id"; "plan"; "message" ]}
        /\ d !! "plan_id" = result !! "plan_id"
        /\ d !! "plan" = result !! "plan"
        /\ d !! "message" = result !! "message").
Proof.
  intros Hgp. rewrite generate_plan_run, Hgp. unfold plan_response_of, subscript.
  destruct (result !! "plan_id") as [i|]; cbn [fst].
  2:{ split; [split; [intros [d H]; discriminate H | intros ([? H] & _); discriminate H] |].
      intros d H; discriminate H. }
  destruct (result !! "plan") as [p|]; cbn [fst].
  2:{ split; [split; [intros [d H]; discriminate H | intros (_ & [? H] & _); discriminate H] |].
      intros d H; discriminate H. }
  destruct (result !! "message") as [m|]; cbn [fst].
  2:{ split; [split; [intros [d H]; discriminate H | intros (_ & _ & [? H]); discriminate H] |].
      intros d H; discriminate H. }
  split; [split; eauto |].
  intros d H. injection H as <-. split; [| repeat split].
  rewrite !dom_insert_L, dom_empty_L. set_solver.
Qed.

(** X7: every failure of the readiness and plan handlers is a 500 whose
    detail is the last record of the log, after the handler's prefix;
    nothing else of the request is logged as an error. *)
Theorem readiness_and_plan_failures_are_logged w :
  (forall (req : ReadinessRequest) (h : HTTPException) w',
      calculate_readiness orchestrator render req w = (inl h, w') ->
      status_code h = 500%Z
      /\ trace w' = trace w ++ [ readiness_log_request req; readiness_call req;
                                 LogError ("Error calculating readiness: " +:+ detail h) ])
  /\ (forall (req : PlanGenerationRequest) (h : HTTPException) w',
        generate_plan orchestrator req w = (inl h, w') ->
        status_code h = 500%Z
        /\ trace w' = trace w ++ [ plan_log_request req; plan_call req;
                                   LogError ("Error generating plan: " +:+ detail h) ]).
Proof.
  split; intros req h w'.
  - rewrite calculate_readiness_run.
    destruct (calculate_readiness_of _ _ _ _) as [[e|result] s];
      [| destruct (readiness_response_of render result) as [e|resp]];
      intros H; try discriminate H; injection H as <- <-; split; reflexivity.
  - rewrite generate_plan_run.
    destruct (generate_training_plan _ _ _ _ _) as [[e|result] s];
      [| destruct (plan_response_of result) as [e|d]];
      intros H; try discriminate H; injection H as <- <-; split; reflexivity.
Qed.

Lemma required_absent {A : Type} (f : pyval -> option A) (body : gmap string pyval)
    (field : string) :
  body !! field = None ->
  required f body field = inl [ {| loc := field; kind := Missing |} ].
Proof. intros H. unfold required. now rewrite H. Qed.

(** X8: a body that gives [message] and [user_id] as strings and none of the
    three other fields is valid whatever other keys it has; the persona
    is then ["calm"], and the orchestrator is called once, with the calm
    configuration and neither conversation nor context. *)
Theorem post_chat_applies_defaults (body : gmap string pyval) w (m u : string) :
  body !! "message" = Some (VStr m) ->
  body !! "user_id" = Some (VStr u) ->
  body !! "conversation_id" = None ->
  body !! "persona" = None ->
  body !! "context" = None ->
  ChatRequest_validate body
    = inr {| message := m; user_id := u; conversation_id := None;
             persona := "calm"; context := None |}
  /\ orchestrator_calls (trace (post_chat orchestrator render body w).2)
     = orchestrator_calls (trace w) ++ [CallProcessMessage u m None calm_config None].
Proof.
  intros Hm Hu Hc Hp Hx.
  assert (Hv : ChatRequest_validate body
                = inr {| message := m; user_id := u; conversation_id := None;
                         persona := "calm"; context := None |}).
  { unfold ChatRequest_validate, required, defaulted.
    rewrite Hm, Hu, Hc, Hp, Hx. reflexivity. }
  split; [exact Hv |]. unfold post_chat, route. rewrite Hv.
  match goal with
  | |- context [chat orchestrator render ?r w] =>
      pose proof (chat_calls_orchestrator_once orchestrator render r w calm_config
                    get_persona_config_calm) as Hcall;
      destruct (chat orchestrator render r w) as [[?|?] ?]
  end; exact Hcall.
Qed.

(** X9: for the fields typed [Optional], [conversation_id] and [context], a
    JSON null is the same as leaving the field out. For [persona], which
    has a default but is typed [str], a null is refused. *)
Theorem null_is_absent_for_optional_fields (body : gmap string pyval) :
  ChatRequest_validate (<[ "conversation_id" := VNone ]> body)
    = ChatRequest_validate (delete "conversation_id" body)
  /\ ChatRequest_validate (<[ "context" := VNone ]> body)
     = ChatRequest_validate (delete "context" body)
  /\ exists errors,
       ChatRequest_validate (<[ "persona" := VNone ]> body) = inl errors
       /\ {| loc := "persona"; kind := WrongType |} ∈ errors.
Proof.
  split; [| split].
  - unfold ChatRequest_validate, required, defaulted.
    rewrite lookup_insert_eq, lookup_delete_eq.
    rewrite !lookup_insert_ne, !lookup_delete_ne by discriminate. reflexivity.
  - unfold ChatRequest_validate, required, defaulted.
    rewrite lookup_insert_eq, lookup_delete_eq.
    rewrite !lookup_insert_ne, !lookup_delete_ne by discriminate. reflexivity.
  - unfold ChatRequest_validate. cbv zeta.
    assert (Hp : defaulted as_str "calm" (<[ "persona" := VNone ]> body) "persona"
                 = inl [ {| loc := "persona"; kind := WrongType |} ]).
    { unfold defaulted. rewrite lookup_insert_eq. reflexivity. }
    rewrite Hp.
    destruct (required as_str _ "message"), (required as_str _ "user_id"),
      (defaulted (as_optional as_str) None _ "conversation_id");
      (eexists; split; [reflexivity |]);
      cbn [errors_of]; rewrite !elem_of_app, list_elem_of_singleton; tauto.
Qed.

(** X10: none of the three routes with a body model runs its handler on a
    body without [user_id]: the reply is 422 and names the field, and
    neither the log nor the orchestrator is touched. *)
Theorem routes_reject_missing_user_id (body : gmap string pyval) w :
  body !! "user_id" = None ->
  (exists errors,
     post_chat orchestrator render body w = (Unprocessable errors, w)
     /\ {| loc := "user_id"; kind := Missing |} ∈ errors)
  /\ (exists errors,
        post_readiness orchestrator render body w = (Unprocessable errors, w)
        /\ {| loc := "user_id"; kind := Missing |} ∈ errors)
  /\ (exists errors,
        post_generate_plan orchestrator body w = (Unprocessable errors, w)
        /\ {| loc := "user_id"; kind := Missing |} ∈ errors).
Proof.
  intros Hu. split; [| split].
  - destruct (ChatRequest_validate_missing render body (or_intror Hu))
      as (errors & Hv & _ & Hin).
    exists errors. split; [| now apply Hin].
    unfold post_chat, route. now rewrite Hv.
  - unfold post_readiness, route, ReadinessRequest_validate. cbv zeta.
    rewrite (required_absent as_str body "user_id" Hu).
    eexists. split; [reflexivity |].
    cbn [errors_of]. rewrite elem_of_app, list_elem_of_singleton. tauto.
  - unfold post_generate_plan, route, PlanGenerationRequest_validate. cbv zeta.
    rewrite (required_absent as_str body "user_id" Hu).
    eexists. split; [reflexivity |].
    cbn [errors_of]. rewrite !elem_of_app, list_elem_of_singleton. tauto.
Qed.


End Handlers.

(** ** The gateway at further concrete inputs *)

Lemma chat_failure_is_logged_once_witness :
  status_code {| status_code := 500; detail := "upstream unavailable" |} = 500%Z
  /\ exists t,
       [ chat_log_request sample_request; chat_call sample_request motivational_config;
         LogError "Error processing chat request: upstream unavailable" ]
       = [] ++ t ++ [LogError "Error processing chat request: upstream unavailable"]
       /\ forallb (fun ev => negb (is_log_error ev)) t = true.
Proof.
  apply (chat_failure_is_logged_once failing_orchestrator sample_render sample_request
           fresh_world {| status_code := 500; detail := "upstream unavailable" |}
           {| orch := 1;
              trace := [ chat_log_request sample_request;
                         chat_call sample_request motivational_config;
                         LogError "Error processing chat request: upstream unavailable" ] |}).
  vm_compute. reflexivity.
Defined.

Lemma chat_reports_first_missing_key_witness :
  chat forgetful_orchestrator sample_render sample_request fresh_world =
    (inl {| status_code := 500; detail := "'intent'" |},
     {| orch := 1;
        trace := [ chat_log_request sample_request;
                   chat_call sample_request motivational_config;
                   chat_log_success sample_request;
                   LogError "Error processing chat request: 'intent'" ] |}).
Proof.
  apply (chat_reports_first_missing_key forgetful_orchestrator sample_render
           sample_request fresh_world motivational_config
           (delete "intent" sample_result) 1 "intent");
    reflexivity.
Defined.

Lemma chat_succeeds_on_well_formed_result_witness :
  chat answering_orchestrator sample_render sample_request fresh_world
  = (inr sample_response, sample_world_after).
Proof.
  apply (chat_succeeds_on_well_formed_result answering_orchestrator sample_render
           sample_request fresh_world motivational_config sample_result 1
           "Done." "coach" "c-1" "chat" (Some [ {[ "type" := VStr "log" ]} ]) None);
    reflexivity.
Defined.


Lemma generate_plan_needs_three_keys_witness :
  exists d, (generate_plan answering_orchestrator sample_plan_request fresh_world).1 = inr d.
Proof.
  apply (proj2 (proj1 (generate_plan_needs_three_keys answering_orchestrator
                         sample_plan_request fresh_world sample_plan 1 eq_refl))).
  repeat split; eexists; reflexivity.
Defined.

Lemma post_chat_applies_defaults_witness :
  ChatRequest_validate empty_message_body
    = inr {| message := EmptyString; user_id := "u1"; conversation_id := None;
             persona := "calm"; context := None |}
  /\ orchestrator_calls
       (trace (post_chat answering_orchestrator sample_render empty_message_body
                 fresh_world).2)
     = [] ++ [CallProcessMessage "u1" EmptyString None calm_config None].
Proof.
  apply (post_chat_applies_defaults answering_orchestrator sample_render
           empty_message_body fresh_world EmptyString "u1"); reflexivity.
Defined.

Lemma routes_reject_missing_user_id_witness :
  (exists errors,
     post_chat answering_orchestrator sample_render ∅ fresh_world
       = (Unprocessable errors, fresh_world)
     /\ {| loc := "user_id"; kind := Missing |} ∈ errors)
  /\ (exists errors,
        post_readiness answering_orchestrator sample_render ∅ fresh_world
          = (Unprocessable errors, fresh_world)
        /\ {| loc := "user_id"; kind := Missing |} ∈ errors)
  /\ (exists errors,
        post_generate_plan answering_orchestrator ∅ fresh_world
          = (Unprocessable errors, fresh_world)
        /\ {| loc := "user_id"; kind := Missing |} ∈ errors).
Proof.
  apply (routes_reject_missing_user_id answering_orchestrator sample_render ∅ fresh_world).
  reflexivity.
Defined.

(** ** Further properties of the persona registry *)

Lemma resolved_in_registry (s : string) (c : PersonaConfig) :
  get_persona_config personality_system s = inr c -> c ∈ persona_configs.
Proof.
  intros H. destruct (get_persona_config_total s) as (c' & Hc' & Hin).
  rewrite H in Hc'. now injection Hc' as ->.
Qed.

Lemma accent_color_injective (c1 c2 : PersonaConfig) :
  c1 ∈ persona_configs -> c2 ∈ persona_configs ->
  accent_color c1 = accent_color c2 -> c1 = c2.
Proof.
  unfold persona_configs. rewrite !elem_of_cons, !elem_of_nil.
  intros [->|[->|[->|[->|[]]]]] [->|[->|[->|[->|[]]]]] H;
    try reflexivity; discriminate H.
Qed.

(** X12: the theme identifies the persona: two identifiers have the same
    theme exactly when they resolve to the same configuration; the four
    accent colours are pairwise different. *)
Theorem ui_config_identifies_persona (p q : string) :
  (get_ui_config personality_system p = get_ui_config personality_system q
   <-> get_persona_config personality_system p = get_persona_config personality_system q)
  /\ NoDup (accent_color <$> persona_configs).
Proof.
  split.
  - destruct (get_persona_config_total p) as (c1 & H1 & Hin1).
    destruct (get_persona_config_total q) as (c2 & H2 & Hin2).
    unfold get_ui_config. rewrite H1, H2. split.
    + intros H.
      assert (Hcol : accent_color c1 = accent_color c2).
      { apply (f_equal (fun r : Exception + gmap string string =>
                          match r with
                          | inr d => d !! "accent_color"
                          | inl _ => None
                          end)) in H.
        cbv beta iota in H. rewrite !lookup_insert_eq in H. now injection H. }
      now rewrite (accent_color_injective c1 c2 Hin1 Hin2 Hcol).
    + intros H. injection H as ->. reflexivity.
  - apply (bool_decide_unpack _). vm_compute. exact I.
Qed.

(** X13: for every identifier the theme has exactly the keys [accent_color],
    [avatar_url] and [name]; the colour is written [#RRGGBB], the avatar
    is a PNG under [/avatars/], and the name is not empty. *)
Theorem ui_config_is_well_formed (p : string) :
  exists (d : gmap string string) (color url label : string),
    get_ui_config personality_system p = inr d
    /\ dom d = {[ "accent_color"; "avatar_url"; "name" ]}
    /\ d !! "accent_color" = Some color /\ is_hex_color color = true
    /\ d !! "avatar_url" = Some url
    /\ String.prefix "/avatars/" url = true
    /\ (exists stem, url = stem +:+ ".png")
    /\ d !! "name" = Some label /\ nonempty_str label = true.
Proof.
  destruct (get_persona_config_total p) as (c & Hc & Hin).
  unfold get_ui_config. rewrite Hc.
  eexists _, (accent_color c), (avatar_url c), (name c).
  split; [reflexivity |].
  split; [rewrite !dom_insert_L, dom_empty_L; set_solver |].
  split; [reflexivity |].
  unfold persona_configs in Hin. rewrite !elem_of_cons, elem_of_nil in Hin.
  destruct Hin as [->|[->|[->|[->|[]]]]];
    (split; [reflexivity |]); (split; [reflexivity |]); (split; [reflexivity |]);
    (split; [| split; reflexivity]).
  - now exists "/avatars/calm-coach".
  - now exists "/avatars/hype-coach".
  - now exists "/avatars/gentle-coach".
  - now exists "/avatars/tactical-coach".
Qed.

(** X14: no persona is told both to use and to avoid a phrase, and neither
    list repeats one: for the configuration an identifier resolves to,
    [vocabulary] and [avoid_phrases] are duplicate-free and disjoint. *)
Theorem vocabulary_never_avoided (s : string) (c : PersonaConfig) :
  get_persona_config personality_system s = inr c ->
  NoDup (vocabulary c) /\ NoDup (avoid_phrases c)
  /\ Forall (fun x => x ∉ avoid_phrases c) (vocabulary c).
Proof.
  intros H. apply resolved_in_registry in H.
  unfold persona_configs in H. rewrite !elem_of_cons, elem_of_nil in H.
  destruct H as [->|[->|[->|[->|[]]]]];
    (split; [| split]); apply (bool_decide_unpack _); vm_compute; exact I.
Qed.

Lemma vocabulary_never_avoided_witness :
  NoDup (vocabulary gentle_config) /\ NoDup (avoid_phrases gentle_config)
  /\ Forall (fun x => x ∉ avoid_phrases gentle_config) (vocabulary gentle_config).
Proof.
  apply (vocabulary_never_avoided "gentle" gentle_config). reflexivity.
Defined.

(** ** The excerpt of the message in the log *)

Lemma str_prefix_bound (n : nat) (s : string) : code_points (str_prefix n s) <= n.
Proof.
  revert n. induction s as [|c s IH]; intros n; cbn; [lia |].
  destruct (is_continuation c) eqn:E; cbn; rewrite ?E; [apply IH |].
  destruct n as [|n]; cbn; rewrite ?E; [lia |]. specialize (IH n). lia.
Qed.

Lemma str_prefix_split (n : nat) (s : string) :
  exists rest, s = str_prefix n s +:+ rest.
Proof.
  revert n. induction s as [|c s IH]; intros n; cbn; [now exists EmptyString |].
  destruct (is_continuation c).
  - destruct (IH n) as [rest Hrest]. exists rest.
    change (String c s = String c (str_prefix n s +:+ rest)). now f_equal.
  - destruct n as [|n]; [now exists (String c s) |].
    destruct (IH n) as [rest Hrest]. exists rest.
    change (String c s = String c (str_prefix n s +:+ rest)). now f_equal.
Qed.

Lemma str_prefix_short (n : nat) (s : string) :
  code_points s <= n -> str_prefix n s = s.
Proof.
  revert n. induction s as [|c s IH]; intros n; cbn; [reflexivity |].
  destruct (is_continuation c); intros H; [now rewrite IH |].
  destruct n as [|n]; [lia |]. rewrite IH; [reflexivity | lia].
Qed.

(** X15: the first record [chat] logs quotes the message up to its fiftieth
    code point: the excerpt starts the message, has at most 50 code
    points, is the whole message when that has no more, and is always
    followed by three dots. *)
Theorem chat_log_quotes_at_most_50_code_points (req : ChatRequest) :
  exists excerpt rest : string,
    chat_log_request req
      = LogInfo ("Chat request from user " +:+ user_id req +:+ ": "
                   +:+ excerpt +:+ "...")
    /\ message req = excerpt +:+ rest
    /\ code_points excerpt <= 50
    /\ (code_points (message req) <= 50 -> excerpt = message req).
Proof.
  destruct (str_prefix_split 50 (message req)) as [rest Hrest].
  exists (str_prefix 50 (message req)), rest.
  split; [reflexivity |]. split; [exact Hrest |].
  split; [apply str_prefix_bound | apply str_prefix_short].
Qed.
